(** * roscopter waypoint manager: a shallow embedding of
      [src/waypoint_manager/waypoint_manager.py] and its properties.

    The node keeps an ordered list of waypoints and the index of the
    waypoint currently flown to.  Odometry samples advance the index,
    three services edit or show the list.  Callbacks are modelled in a
    small state/output/exception monad over the node's fields; the
    floating point operations of Python and numpy are an interface. *)

From Stdlib Require Import ZArith Lia String.
From stdpp Require Import base list.

Local Open Scope Z_scope.

(** ** Numbers

    Coordinates, angles and the threshold are Python floats.  The
    embedding is parametric in their operations. *)

Class Numeric (F : Type) := {
  of_int : Z -> F;            (* an int literal used where a float is *)
  fneg : F -> F;              (* unary minus *)
  fadd : F -> F -> F;
  fsub : F -> F -> F;
  fmul : F -> F -> F;
  fpow : F -> Z -> F;         (* x ** n *)
  fsqrt : F -> F;             (* np.sqrt *)
  arctan2 : F -> F -> F;      (* np.arctan2 *)
  flt : F -> F -> bool        (* x < y *)
}.

(** An exact instance on integer grid coordinates, used to run the
    callbacks on concrete samples.  Angles are counted in quarter turns,
    so [arctan2] is exact on the axes. *)
Definition grid_arctan2 (y x : Z) : Z :=
  if (y =? 0) then (if (x <? 0) then 2 else 0)
  else if (0 <? y) then (if (0 <? x) then 0 else if (x =? 0) then 1 else 2)
  else (if (0 <? x) then 0 else if (x =? 0) then -1 else -2).

#[export] Instance grid_numeric : Numeric Z := {|
  of_int := fun z => z;
  fneg := Z.opp;
  fadd := Z.add;
  fsub := Z.sub;
  fmul := Z.mul;
  fpow := Z.pow;
  fsqrt := Z.sqrt;
  arctan2 := grid_arctan2;
  flt := Z.ltb
|}.

(** ** Python lists indexed by a signed integer *)

Module PyList.
Section Ops.
Context {A : Type}.

Definition len (l : list A) : Z := Z.of_nat (length l).

(** [l[i]]: a negative index counts from the end; [None] stands for
    [IndexError]. *)
Definition getitem (l : list A) (i : Z) : option A :=
  let j := if i <? 0 then i + len l else i in
  if (0 <=? j) && (j <? len l) then l !! Z.to_nat j else None.

(** [del l[i]] *)
Definition delitem (l : list A) (i : Z) : option (list A) :=
  let j := if i <? 0 then i + len l else i in
  if (0 <=? j) && (j <? len l) then Some (delete (Z.to_nat j) l) else None.

(** [l.insert(i, x)]: never fails, the position is clipped to the
    list. *)
Definition insert (i : Z) (x : A) (l : list A) : list A :=
  let j := if i <? 0 then Z.max 0 (i + len l) else Z.min i (len l) in
  take (Z.to_nat j) l ++ x :: drop (Z.to_nat j) l.
End Ops.
End PyList.

(** ** Messages, requests and what a callback can do *)

Definition Time := Z.

(** The one control mode the node uses ([rosflight_msgs/Command]). *)
Inductive CommandMode := MODE_XPOS_YPOS_YAW_ALTITUDE.

Inductive Exn := IndexError | ValueError | ZeroDivisionError.

(** What a callback hands back to rospy. *)
Inductive PyVal := PyNone | PyInt (n : Z) | PyBool (b : bool).

Section Node.
Context {F : Type} `{Numeric F}.

Definition Waypoint := list F.

Record Command := {
  cmd_stamp : Time;
  cmd_x : F;
  cmd_y : F;
  cmd_F : F;
  cmd_z : F;
  cmd_mode : CommandMode
}.

Record RelativePose := { rel_x : F; rel_y : F; rel_z : F; rel_F : F }.

Record AddWaypointRequest := {
  add_x : F; add_y : F; add_z : F; add_psi : F; add_index : Z
}.

Record RemoveWaypointRequest := { remove_index : Z }.

(** The part of [nav_msgs/Odometry] that is read. *)
Record Odometry := {
  position_x : F; position_y : F; position_z : F;
  orientation_w : F; orientation_x : F; orientation_y : F;
  orientation_z : F
}.

Inductive Event :=
| waypoint_pub (c : Command)
| relPose_pub (r : RelativePose)
| logwarn (s : string)
| loginfo (s : string)
| print_waypoints (l : list Waypoint)
| print_string (s : string).

(** The fields of [WaypointManager] that outlive [__init__]. *)
Record WaypointManager := {
  waypoint_list : list Waypoint;
  current_waypoint_index : Z;
  threshold : F;
  cyclical_path : bool
}.

Definition set_index (i : Z) (self : WaypointManager) : WaypointManager :=
  {| waypoint_list := waypoint_list self;
     current_waypoint_index := i;
     threshold := threshold self;
     cyclical_path := cyclical_path self |}.

Definition set_list (l : list Waypoint) (self : WaypointManager)
  : WaypointManager :=
  {| waypoint_list := l;
     current_waypoint_index := current_waypoint_index self;
     threshold := threshold self;
     cyclical_path := cyclical_path self |}.

(** *** The callback monad

    A callback ends normally or by an exception; either way the
    fields it has written and the messages it has sent stay. *)
Inductive Result (A : Type) :=
| Ok (a : A) (self : WaypointManager) (out : list Event)
| Raise (e : Exn) (self : WaypointManager) (out : list Event).
Arguments Ok {A}.
Arguments Raise {A}.

Definition M (A : Type) : Type := WaypointManager -> Result A.

Definition ret {A} (a : A) : M A := fun self => Ok a self [].

Definition bind {A B} (m : M A) (k : A -> M B) : M B :=
  fun self =>
    match m self with
    | Ok a self1 out1 =>
        match k a self1 with
        | Ok b self2 out2 => Ok b self2 (out1 ++ out2)
        | Raise e self2 out2 => Raise e self2 (out1 ++ out2)
        end
    | Raise e self1 out1 => Raise e self1 out1
    end.

Definition get : M WaypointManager := fun self => Ok self self [].
Definition modify (f : WaypointManager -> WaypointManager) : M unit :=
  fun self => Ok tt (f self) [].
Definition emit (ev : Event) : M unit := fun self => Ok tt self [ev].
Definition throw {A} (e : Exn) : M A := fun self => Raise e self [].
Definition orelse {A} (o : option A) (e : Exn) : M A :=
  match o with Some a => ret a | None => throw e end.

Definition final_state {A} (r : Result A) : WaypointManager :=
  match r with Ok _ self _ | Raise _ self _ => self end.

Definition output {A} (r : Result A) : list Event :=
  match r with Ok _ _ out | Raise _ _ out => out end.
End Node.

Arguments Ok {F A}.
Arguments Raise {F A}.
Arguments Command : clear implicits.
Arguments RelativePose : clear implicits.
Arguments AddWaypointRequest : clear implicits.
Arguments Odometry : clear implicits.
Arguments Event : clear implicits.
Arguments WaypointManager : clear implicits.
Arguments Result : clear implicits.
Arguments M : clear implicits.

Notation "'let*' x ':=' m 'in' k" := (bind m (fun x => k))
  (at level 10, x name, m at level 100, k at level 200).

(** ** numpy on one-dimensional arrays *)

Module Np.
Section Ops.
Context {F : Type} `{Numeric F}.

(** [a[k]] on an array, for the non-negative constants the node
    uses. *)
Definition item (a : list F) (k : nat) : option F := a !! k.

(** [a - b] with numpy's broadcasting of a one-element operand;
    [None] stands for the [ValueError] on other shape mismatches. *)
Definition sub (a b : list F) : option (list F) :=
  if decide (length a = length b) then Some (zip_with fsub a b)
  else match a, b with
       | [x], _ => Some (map (fsub x) b)
       | _, [y] => Some (map (fun x => fsub x y) a)
       | _, _ => None
       end.

(** [x.dot(x)] *)
Definition sqnorm (v : list F) : F :=
  foldl (fun acc x => fadd acc (fmul x x)) (of_int 0) v.

(** [np.linalg.norm] of a vector: the square root of its dot product
    with itself. *)
Definition linalg_norm (v : list F) : F := fsqrt (sqnorm v).
End Ops.
End Np.

(** ** The callbacks of [WaypointManager] *)

Section Callbacks.
Context {F : Type} `{Numeric F}.

Local Abbreviation State := (WaypointManager F).

(** The [Command] both [__init__] and [pubNextWaypoint] fill in from
    a waypoint: x, y and altitude from the first three components and
    the fourth, when there is one, as [z]. *)
Definition command_of (now : Time) (wp : list F) : option (Command F) :=
  match Np.item wp 0, Np.item wp 1, Np.item wp 2 with
  | Some x, Some y, Some alt =>
      Some {| cmd_stamp := now;
              cmd_x := x;
              cmd_y := y;
              cmd_F := alt;
              cmd_z := if 3 <? PyList.len wp
                       then default (of_int 0) (Np.item wp 3)
                       else of_int 0;
              cmd_mode := MODE_XPOS_YPOS_YAW_ALTITUDE |}
  | _, _, _ => None
  end.

(** [__init__], after the parameters are read: the first relative
    pose and the first command. *)
Definition init (waypoints : list (list F)) (thr : F) (cycle : bool)
    (now : Time) : Result F unit :=
  (let* _ := emit (relPose_pub
               {| rel_x := of_int 0; rel_y := of_int 0;
                  rel_z := of_int 0; rel_F := of_int 0 |}) in
   let* _ := modify (set_index 0) in
   let* self := get in
   let* current_waypoint :=
     orelse (PyList.getitem (waypoint_list self) 0) IndexError in
   let* command_msg := orelse (command_of now current_waypoint) IndexError in
   emit (waypoint_pub command_msg))
  {| waypoint_list := waypoints; current_waypoint_index := 0;
     threshold := thr; cyclical_path := cycle |}.

Definition wrapWaypointIndex : M F unit :=
  let* self := get in
  if cyclical_path self then
    if PyList.len (waypoint_list self) =? 0 then throw ZeroDivisionError
    else modify (set_index (current_waypoint_index self
                            `mod` PyList.len (waypoint_list self)))
  else
    if current_waypoint_index self >=? PyList.len (waypoint_list self)
    then modify (set_index (current_waypoint_index self - 1))
    else ret tt.

Definition pubNextWaypoint (now : Time) : M F unit :=
  let* self := get in
  let* next_waypoint :=
    orelse (PyList.getitem (waypoint_list self)
              (current_waypoint_index self)) IndexError in
  let* command_msg := orelse (command_of now next_waypoint) IndexError in
  emit (waypoint_pub command_msg).

(** The local [index] of [addWaypointCallback]: the list length for the
    sentinel -1, nothing when the request is turned down, the requested
    index otherwise. *)
Definition insertion_index (self : State) (req : AddWaypointRequest F)
    : option Z :=
  if add_index req =? -1 then Some (PyList.len (waypoint_list self))
  else if add_index req >? PyList.len (waypoint_list self) then None
  else Some (add_index req).

Definition new_waypoint_of (req : AddWaypointRequest F) : list F :=
  [add_x req; add_y req; add_z req; add_psi req].

Definition addWaypointCallback (req : AddWaypointRequest F) : M F PyVal :=
  let* self := get in
  let new_waypoint := new_waypoint_of req in
  match insertion_index self req with
  | None =>
      let* _ := emit (logwarn "Waypoint Index Out of Range") in
      ret PyNone
  | Some index =>
      let* _ := modify (set_list
                  (PyList.insert index new_waypoint (waypoint_list self))) in
      let* _ := (if current_waypoint_index self >=? index
                 then modify (set_index (current_waypoint_index self + 1))
                 else ret tt) in
      let* _ := emit (loginfo "Added New Waypoint") in
      let* self := get in
      ret (PyInt (PyList.len (waypoint_list self)))
  end.

Definition removeWaypointCallback (now : Time) (req : RemoveWaypointRequest)
    : M F PyVal :=
  let* self := get in
  if PyList.len (waypoint_list self) =? 1 then
    let* _ := emit (logwarn "Cannot Remove Only Waypoint") in
    ret (PyInt (PyList.len (waypoint_list self)))
  else if remove_index req >=? PyList.len (waypoint_list self) then
    let* _ := emit (logwarn "Waypoint Index Out of Range") in
    ret PyNone
  else
    let* l := orelse (PyList.delitem (waypoint_list self)
                        (remove_index req)) IndexError in
    let* _ := modify (set_list l) in
    let* _ :=
      (if remove_index req =? current_waypoint_index self then
         let* _ := wrapWaypointIndex in
         pubNextWaypoint now
       else if current_waypoint_index self >=? PyList.len l then
         modify (set_index (current_waypoint_index self - 1))
       else ret tt) in
    let* self := get in
    ret (PyInt (PyList.len (waypoint_list self))).

Definition setWaypointsFromFileCallback : M F PyVal :=
  let* _ := emit (print_string "set Waypoints from File (NOT IMPLEMENTED)") in
  ret PyNone.

Definition listWaypoints : M F PyVal :=
  let* self := get in
  let* _ := emit (print_waypoints (waypoint_list self)) in
  ret (PyBool true).

(** The position with the vertical axis negated, as the callback
    builds it. *)
Definition current_position_of (msg : Odometry F) : list F :=
  [position_x msg; position_y msg; fneg (position_z msg)].

(** Yaw from the quaternion. *)
Definition yaw_of (msg : Odometry F) : F :=
  let qw := orientation_w msg in
  let qx := orientation_x msg in
  let qy := orientation_y msg in
  let qz := orientation_z msg in
  arctan2 (fmul (of_int 2) (fadd (fmul qw qz) (fmul qx qy)))
          (fsub (of_int 1)
                (fmul (of_int 2) (fadd (fpow qy 2) (fpow qz 2)))).

Definition odometryCallback (now : Time) (msg : Odometry F) : M F PyVal :=
  let* self := get in
  let* current_waypoint :=
    orelse (PyList.getitem (waypoint_list self)
              (current_waypoint_index self)) IndexError in
  let current_position := current_position_of msg in
  let y := yaw_of msg in
  let* diff := orelse (Np.sub current_position (take 3 current_waypoint))
                 ValueError in
  let error := Np.linalg_norm diff in
  let* _ := emit (relPose_pub
               {| rel_x := position_x msg;
                  rel_y := position_y msg;
                  rel_z := y;
                  rel_F := fneg (position_z msg) |}) in
  if flt error (threshold self) then
    let* _ := modify (set_index (current_waypoint_index self + 1)) in
    let* _ := wrapWaypointIndex in
    let* _ := pubNextWaypoint now in
    ret PyNone
  else ret PyNone.

(** *** The node as a transition system *)

Inductive Call :=
| AddWaypoint (req : AddWaypointRequest F)
| RemoveWaypoint (now : Time) (req : RemoveWaypointRequest)
| SetWaypointsFromFile
| ListWaypoints
| PositionSample (now : Time) (msg : Odometry F).

Definition handle (c : Call) : M F PyVal :=
  match c with
  | AddWaypoint req => addWaypointCallback req
  | RemoveWaypoint now req => removeWaypointCallback now req
  | SetWaypointsFromFile => setWaypointsFromFileCallback
  | ListWaypoints => listWaypoints
  | PositionSample now msg => odometryCallback now msg
  end.

(** rospy keeps the node alive when a callback raises: the next call
    sees the fields as the failed one left them. *)
Definition step (self : State) (c : Call) : State :=
  final_state (handle c self).

Inductive reachable : State -> Prop :=
| reachable_init self :
    waypoint_list self <> [] ->
    current_waypoint_index self = 0 ->
    reachable self
| reachable_step self c :
    reachable self -> reachable (step self c).

(** The index points into the list, which is not empty. *)
Definition index_in_range (self : State) : Prop :=
  0 <= current_waypoint_index self < PyList.len (waypoint_list self)
  /\ 1 <= PyList.len (waypoint_list self).

(** Every waypoint has at least x, y and altitude. *)
Definition waypoints_wf (self : State) : Prop :=
  Forall (fun wp : list F => (3 <= length wp)%nat) (waypoint_list self).

(** rospy reports a service call as failed to its caller when the
    handler returns [None] or raises; any other value is sent back as
    the response. *)
Definition failed (r : Result F PyVal) : Prop :=
  match r with
  | Ok PyNone _ _ => True
  | Ok _ _ _ => False
  | Raise _ _ _ => True
  end.


(** Handling a sequence of calls, one after the other. *)
Definition run (self : State) (calls : list Call) : State :=
  foldl step self calls.

Definition is_sample (c : Call) : bool :=
  match c with PositionSample _ _ => true | _ => false end.

Definition is_waypoint_pub (ev : Event F) : bool :=
  match ev with waypoint_pub _ => true | _ => false end.

Definition is_relPose_pub (ev : Event F) : bool :=
  match ev with relPose_pub _ => true | _ => false end.

End Callbacks.


(** ** Concrete nodes on the integer grid *)

(** The three waypoints of the spec's scenarios. *)
Definition scenario_waypoints : list (list Z) :=
  [[0; 0; 10]; [5; 5; 10]; [10; 10; 10]].

Definition scenario_node (i : Z) (cycle : bool) : WaypointManager Z :=
  {| waypoint_list := scenario_waypoints;
     current_waypoint_index := i;
     threshold := 1;
     cyclical_path := cycle |}.

Definition single_node : WaypointManager Z :=
  {| waypoint_list := [[0; 0; 10]];
     current_waypoint_index := 0;
     threshold := 1;
     cyclical_path := true |}.

(** A level sample at the given position (identity quaternion). *)
Definition sample_at (x y z : Z) : Odometry Z :=
  {| position_x := x; position_y := y; position_z := z;
     orientation_w := 1; orientation_x := 0; orientation_y := 0;
     orientation_z := 0 |}.

(** Scenario A followed by scenario B. *)
Definition scenario_run : WaypointManager Z :=
  step (step (scenario_node 0 true)
          (PositionSample 7 (sample_at 0 0 (-10))))
       (RemoveWaypoint 8 {| remove_index := 1 |}).

Definition add_request (x y z psi : Z) (index : Z) : AddWaypointRequest Z :=
  {| add_x := x; add_y := y; add_z := z; add_psi := psi;
     add_index := index |}.


(** Four waypoints, the last with a yaw, flown without cycling. *)
Definition four_node (i : Z) : WaypointManager Z :=
  {| waypoint_list := [[0; 0; 10]; [5; 5; 10]; [10; 10; 10]; [15; 15; 10; 1]];
     current_waypoint_index := i;
     threshold := 1;
     cyclical_path := false |}.

(** The scenario list with a threshold of 3. *)
Definition wide_node (i : Z) : WaypointManager Z :=
  {| waypoint_list := scenario_waypoints;
     current_waypoint_index := i;
     threshold := 3;
     cyclical_path := true |}.

(** A node whose first waypoint lacks the altitude. *)
Definition short_node : WaypointManager Z :=
  {| waypoint_list := [[0; 0]; [5; 5; 10]];
     current_waypoint_index := 0;
     threshold := 1;
     cyclical_path := true |}.



(** * Properties *)

(** ** Python list operations *)

Section PyListFacts.
Context {A : Type}.
Implicit Types (l : list A) (i : Z) (x : A).

Lemma getitem_nonneg l i :
  0 <= i < PyList.len l -> PyList.getitem l i = l !! Z.to_nat i.
Proof.
  intros Hi. unfold PyList.getitem.
  destruct (Z.ltb_spec i 0); [lia|].
  destruct (Z.leb_spec 0 i); [|lia].
  destruct (Z.ltb_spec i (PyList.len l)); [reflexivity|lia].
Qed.

Lemma getitem_is_Some l i :
  0 <= i < PyList.len l -> is_Some (PyList.getitem l i).
Proof.
  intros Hi. rewrite getitem_nonneg by assumption.
  apply lookup_lt_is_Some. unfold PyList.len in Hi. lia.
Qed.

Lemma delitem_nonneg l i :
  0 <= i < PyList.len l ->
  PyList.delitem l i = Some (delete (Z.to_nat i) l).
Proof.
  intros Hi. unfold PyList.delitem.
  destruct (Z.ltb_spec i 0); [lia|].
  destruct (Z.leb_spec 0 i); [|lia].
  destruct (Z.ltb_spec i (PyList.len l)); [reflexivity|lia].
Qed.

Lemma delitem_negative l i :
  - PyList.len l <= i <= -1 ->
  PyList.delitem l i = Some (delete (Z.to_nat (PyList.len l + i)) l).
Proof.
  intros Hi. unfold PyList.delitem.
  destruct (Z.ltb_spec i 0); [|lia].
  destruct (Z.leb_spec 0 (i + PyList.len l)); [|lia].
  destruct (Z.ltb_spec (i + PyList.len l) (PyList.len l)); [|lia].
  now rewrite Z.add_comm.
Qed.

Lemma delitem_len l i l' :
  PyList.delitem l i = Some l' -> PyList.len l' = PyList.len l - 1.
Proof.
  unfold PyList.delitem.
  set (j := if i <? 0 then i + PyList.len l else i).
  destruct (Z.leb_spec 0 j); [|discriminate].
  destruct (Z.ltb_spec j (PyList.len l)); [|discriminate].
  simpl. intros [= <-]. unfold PyList.len in *.
  rewrite length_delete.
  - lia.
  - apply lookup_lt_is_Some. lia.
Qed.

Lemma insert_len i x l :
  PyList.len (PyList.insert i x l) = PyList.len l + 1.
Proof.
  unfold PyList.insert, PyList.len.
  rewrite length_app. simpl. rewrite length_take, length_drop. lia.
Qed.

(** Inserting at a position in range puts the new element there, keeps
    what was before it and shifts what was at or after it by one. *)
Lemma insert_lookup_new i x l :
  0 <= i <= PyList.len l ->
  PyList.insert i x l !! Z.to_nat i = Some x.
Proof.
  intros Hi. unfold PyList.insert, PyList.len in *.
  destruct (Z.ltb_spec i 0); [lia|].
  rewrite Z.min_l by lia.
  rewrite lookup_app_r; rewrite length_take; [|lia].
  replace (Z.to_nat i - Z.to_nat i `min` length l)%nat with 0%nat by lia.
  reflexivity.
Qed.

Lemma insert_lookup_before i x l (k : nat) :
  0 <= i <= PyList.len l -> (Z.of_nat k < i) ->
  PyList.insert i x l !! k = l !! k.
Proof.
  intros Hi Hk. unfold PyList.insert, PyList.len in *.
  destruct (Z.ltb_spec i 0); [lia|].
  rewrite Z.min_l by lia.
  rewrite lookup_app_l by (rewrite length_take; lia).
  apply lookup_take_lt. lia.
Qed.

Lemma insert_lookup_after i x l (k : nat) :
  0 <= i <= PyList.len l -> (i <= Z.of_nat k) ->
  PyList.insert i x l !! S k = l !! k.
Proof.
  intros Hi Hk. unfold PyList.insert, PyList.len in *.
  destruct (Z.ltb_spec i 0); [lia|].
  rewrite Z.min_l by lia.
  rewrite lookup_app_r; rewrite length_take; [|lia].
  replace (S k - Z.to_nat i `min` length l)%nat
    with (S (k - Z.to_nat i))%nat by lia.
  simpl. rewrite lookup_drop. f_equal. lia.
Qed.

Lemma insert_append x l :
  PyList.insert (PyList.len l) x l = l ++ [x].
Proof.
  unfold PyList.insert, PyList.len.
  destruct (Z.ltb_spec (Z.of_nat (length l)) 0); [lia|].
  rewrite Z.min_id, Nat2Z.id, firstn_all, drop_all. reflexivity.
Qed.

(** Deleting where an element was just inserted gives the list back. *)
Lemma delitem_insert i x l :
  0 <= i <= PyList.len l ->
  PyList.delitem (PyList.insert i x l) i = Some l.
Proof.
  intros Hi. rewrite delitem_nonneg by (rewrite insert_len; lia).
  f_equal. unfold PyList.insert, PyList.len in *.
  destruct (Z.ltb_spec i 0); [lia|].
  rewrite Z.min_l by lia.
  rewrite <- (length_take_le l (Z.to_nat i)) at 1 by lia.
  rewrite delete_middle. apply firstn_skipn.
Qed.

Lemma delitem_below i l :
  i < - PyList.len l -> PyList.delitem l i = None.
Proof.
  intros Hi. unfold PyList.delitem.
  destruct (Z.ltb_spec i 0);
    [|pose proof (Zle_0_nat (length l)); unfold PyList.len in *; lia].
  destruct (Z.leb_spec 0 (i + PyList.len l)); [lia|reflexivity].
Qed.

(** The position an index of [delitem] stands for. *)
Lemma delitem_position i l l' :
  PyList.delitem l i = Some l' ->
  exists k : nat,
    l' = delete k l /\ (k < length l)%nat
    /\ Z.of_nat k = (if i <? 0 then i + PyList.len l else i).
Proof.
  unfold PyList.delitem.
  set (j := if i <? 0 then i + PyList.len l else i).
  destruct (Z.leb_spec 0 j); [|discriminate].
  destruct (Z.ltb_spec j (PyList.len l)); [|discriminate].
  simpl. intros [= <-]. exists (Z.to_nat j).
  unfold PyList.len in *. repeat split; lia.
Qed.

End PyListFacts.

(** ** The callbacks *)

Section CallbackFacts.
Context {F : Type} `{Numeric F}.
Implicit Types (self : WaypointManager F) (l : list (list F)).

Local Abbreviation idx := current_waypoint_index.
Local Abbreviation wps := waypoint_list.

Ltac monad :=
  unfold bind, get, modify, emit, ret, throw, orelse; simpl.

Lemma set_index_same self : set_index (idx self) self = self.
Proof. now destruct self. Qed.

Lemma set_list_same self : set_list (wps self) self = self.
Proof. now destruct self. Qed.

(** What [wrapWaypointIndex] does on a non-empty list. *)
Lemma wrapWaypointIndex_run self :
  1 <= PyList.len (wps self) ->
  wrapWaypointIndex self =
    Ok tt (set_index
             (if cyclical_path self
              then idx self `mod` PyList.len (wps self)
              else if idx self >=? PyList.len (wps self)
                   then idx self - 1 else idx self) self) [].
Proof.
  intros Hlen. unfold wrapWaypointIndex. monad.
  destruct (cyclical_path self).
  - destruct (Z.eqb_spec (PyList.len (wps self)) 0); [lia|]. reflexivity.
  - destruct (idx self >=? PyList.len (wps self)); [reflexivity|].
    now rewrite set_index_same.
Qed.

(** [pubNextWaypoint] writes no field. *)
Lemma pubNextWaypoint_state now self :
  final_state (pubNextWaypoint now self) = self.
Proof.
  unfold pubNextWaypoint. monad.
  destruct (PyList.getitem _ _) as [wp|]; simpl; [|reflexivity].
  destruct (command_of now wp); reflexivity.
Qed.

Lemma pubNextWaypoint_run now self wp c :
  PyList.getitem (wps self) (idx self) = Some wp ->
  command_of now wp = Some c ->
  pubNextWaypoint now self = Ok tt self [waypoint_pub c].
Proof.
  intros Hwp Hc. unfold pubNextWaypoint. monad.
  rewrite Hwp. simpl. rewrite Hc. reflexivity.
Qed.

Lemma command_of_wf now (wp : list F) :
  (3 <= length wp)%nat -> is_Some (command_of now wp).
Proof.
  intros Hwp. destruct wp as [|x [|y [|a wp]]]; simpl in Hwp; try lia.
  unfold command_of. simpl. eauto.
Qed.

Lemma command_of_fields now (x y a : F) (tail : list F) :
  command_of now (x :: y :: a :: tail)
  = Some {| cmd_stamp := now; cmd_x := x; cmd_y := y; cmd_F := a;
            cmd_z := match tail with [] => of_int 0 | psi :: _ => psi end;
            cmd_mode := MODE_XPOS_YPOS_YAW_ALTITUDE |}.
Proof.
  unfold command_of, Np.item, PyList.len. simpl lookup. cbv iota.
  destruct tail as [|psi tail].
  - reflexivity.
  - destruct (Z.ltb_spec 3 (Z.of_nat (length (x :: y :: a :: psi :: tail))));
      [reflexivity|]. simpl length in *. lia.
Qed.

Lemma command_of_short now (wp : list F) :
  (length wp < 3)%nat -> command_of now wp = None.
Proof.
  intros Hwp. destruct wp as [|x [|y [|a wp]]]; simpl in Hwp; try lia;
    reflexivity.
Qed.

(** *** The index stays in range *)

Lemma addWaypointCallback_in_range req self :
  index_in_range self ->
  index_in_range (final_state (addWaypointCallback req self)).
Proof.
  intros [Hi Hl]. unfold addWaypointCallback, insertion_index. monad.
  destruct (Z.eqb_spec (add_index req) (-1)); simpl.
  - unfold index_in_range.
    destruct (idx self >=? PyList.len (wps self)) eqn:E; simpl;
      rewrite insert_len; lia.
  - destruct (Z.gtb_spec (add_index req) (PyList.len (wps self))); simpl.
    + split; assumption.
    + unfold index_in_range.
      destruct (idx self >=? add_index req) eqn:E; simpl;
        rewrite insert_len; lia.
Qed.

Lemma removeWaypointCallback_in_range now req self :
  index_in_range self ->
  index_in_range (final_state (removeWaypointCallback now req self)).
Proof.
  intros [Hi Hl]. unfold removeWaypointCallback. monad.
  destruct (Z.eqb_spec (PyList.len (wps self)) 1); simpl; [now split|].
  destruct (remove_index req >=? PyList.len (wps self)); simpl; [now split|].
  destruct (PyList.delitem (wps self) (remove_index req)) as [l'|] eqn:Hdel;
    simpl; [|now split].
  apply delitem_len in Hdel.
  destruct (Z.eqb_spec (remove_index req) (idx self)); simpl.
  - rewrite wrapWaypointIndex_run by (simpl; lia). simpl.
    match goal with
    | |- context [pubNextWaypoint now ?s] =>
        pose proof (pubNextWaypoint_state now s) as Hpub;
        destruct (pubNextWaypoint now s); simpl in *; subst
    end;
      (unfold index_in_range; simpl;
       destruct (cyclical_path self);
       [ pose proof (Z.mod_pos_bound (idx self) (PyList.len l')); lia
       | destruct (Z.geb_spec (idx self) (PyList.len l')); lia ]).
  - unfold index_in_range.
    destruct (Z.geb_spec (idx self) (PyList.len l')); simpl; lia.
Qed.

Lemma odometryCallback_in_range now msg self :
  index_in_range self ->
  index_in_range (final_state (odometryCallback now msg self)).
Proof.
  intros [Hi Hl]. unfold odometryCallback. monad.
  destruct (PyList.getitem _ _) as [wp|]; simpl; [|now split].
  destruct (Np.sub _ _) as [d|]; simpl; [|now split].
  destruct (flt _ _); simpl; [|now split].
  rewrite wrapWaypointIndex_run by (simpl; lia). simpl.
  match goal with
  | |- context [pubNextWaypoint now ?s] =>
      pose proof (pubNextWaypoint_state now s) as Hpub;
      destruct (pubNextWaypoint now s); simpl in *; subst
  end;
    (unfold index_in_range; simpl;
     destruct (cyclical_path self);
     [ pose proof (Z.mod_pos_bound (idx self + 1) (PyList.len (wps self)));
       lia
     | destruct (Z.geb_spec (idx self + 1) (PyList.len (wps self))); lia ]).
Qed.

Lemma step_in_range self c :
  index_in_range self -> index_in_range (step self c).
Proof.
  intros Hinv. unfold step. destruct c; simpl.
  - now apply addWaypointCallback_in_range.
  - now apply removeWaypointCallback_in_range.
  - exact Hinv.
  - exact Hinv.
  - now apply odometryCallback_in_range.
Qed.

Lemma reachable_in_range self : reachable self -> index_in_range self.
Proof.
  induction 1 as [self Hne H0 | self c _ IH].
  - unfold index_in_range, PyList.len. rewrite H0.
    destruct (wps self); [congruence|]. simpl. lia.
  - now apply step_in_range.
Qed.

(** C1: in every state the node can reach from a non-empty list and
    index 0, by any sequence of service calls and position samples, the
    current index lies in [0, len) and the list has at least one
    waypoint. *)
Theorem reachable_index_invariant self :
  reachable self ->
  0 <= current_waypoint_index self < PyList.len (waypoint_list self)
  /\ 1 <= PyList.len (waypoint_list self).
Proof. intros Hr. exact (reachable_in_range self Hr). Qed.


(** *** The wrap policy *)

(** C3: with the index between 0 and the list length (inclusive) on a
    non-empty list, [wrapWaypointIndex] sets the index to its remainder
    modulo the length in cyclical mode; otherwise an index at or past
    the length becomes the last position and a smaller one is left
    alone, and advancing from the last position comes back to it. *)
Theorem wrapWaypointIndex_policy self :
  0 <= current_waypoint_index self <= PyList.len (waypoint_list self) ->
  1 <= PyList.len (waypoint_list self) ->
  let n := PyList.len (waypoint_list self) in
  let i := current_waypoint_index self in
  (cyclical_path self = true ->
     wrapWaypointIndex self = Ok tt (set_index (i `mod` n) self) [])
  /\ (cyclical_path self = false ->
        (i >= n -> wrapWaypointIndex self = Ok tt (set_index (n - 1) self) [])
        /\ (i < n -> wrapWaypointIndex self = Ok tt self [])
        /\ (i = n - 1 ->
              wrapWaypointIndex (set_index (i + 1) self) = Ok tt self [])).
Proof.
  intros Hi Hn n i. subst n i.
  split; intros Hc.
  - rewrite wrapWaypointIndex_run, Hc by assumption. reflexivity.
  - repeat split; intros Hcase.
    + rewrite wrapWaypointIndex_run, Hc by assumption.
      destruct (Z.geb_spec (idx self) (PyList.len (wps self))); [|lia].
      do 2 f_equal. lia.
    + rewrite wrapWaypointIndex_run, Hc by assumption.
      destruct (Z.geb_spec (idx self) (PyList.len (wps self))); [lia|].
      now rewrite set_index_same.
    + rewrite wrapWaypointIndex_run by assumption. simpl. rewrite Hc.
      destruct (Z.geb_spec (idx self + 1) (PyList.len (wps self))); [|lia].
      replace (idx self + 1 - 1) with (idx self) by lia.
      now destruct self.
Qed.

(** *** Position samples *)

Lemma Np_sub_position (msg : Odometry F) (wx wy wa : F) (rest : list F) :
  Np.sub (current_position_of msg) (take 3 (wx :: wy :: wa :: rest)) =
    Some [fsub (position_x msg) wx; fsub (position_y msg) wy;
          fsub (fneg (position_z msg)) wa].
Proof. reflexivity. Qed.

Lemma wf_lookup self (k : nat) (wp : list F) :
  waypoints_wf self -> wps self !! k = Some wp ->
  exists wx wy wa rest, wp = wx :: wy :: wa :: rest.
Proof.
  intros Hwf Hk.
  pose proof (proj1 (Forall_lookup _ _) Hwf k wp Hk) as Hlen.
  destruct wp as [|wx [|wy [|wa rest]]]; simpl in Hlen; try lia.
  eauto.
Qed.

(** After an advance the index is wrapped and the waypoint it points to
    gives a command. *)
Lemma wrapped_target now self (i : Z) :
  waypoints_wf self -> 1 <= PyList.len (wps self) ->
  0 <= i <= PyList.len (wps self) ->
  let self' :=
    set_index (if cyclical_path self then i `mod` PyList.len (wps self)
               else if i >=? PyList.len (wps self) then i - 1 else i) self in
  0 <= idx self' < PyList.len (wps self)
  /\ exists wp c,
       PyList.getitem (wps self) (idx self') = Some wp
       /\ command_of now wp = Some c.
Proof.
  intros Hwf Hn Hi self'.
  assert (Hr : 0 <= idx self' < PyList.len (wps self)).
  { subst self'. simpl. destruct (cyclical_path self).
    - apply Z.mod_pos_bound. lia.
    - destruct (Z.geb_spec i (PyList.len (wps self))); lia. }
  split; [exact Hr|].
  destruct (getitem_is_Some (wps self) (idx self') Hr) as [wp Hwp].
  exists wp.
  assert (Hlen : (3 <= length wp)%nat).
  { rewrite getitem_nonneg in Hwp by exact Hr.
    exact (proj1 (Forall_lookup _ _) Hwf _ _ Hwp). }
  destruct (command_of_wf now wp Hlen) as [c Hc]. eauto.
Qed.


(** The same with the published command spelled out. *)
Lemma wrapped_target_fields now self (i : Z) :
  waypoints_wf self -> 1 <= PyList.len (wps self) ->
  0 <= i <= PyList.len (wps self) ->
  let i' := if cyclical_path self then i `mod` PyList.len (wps self)
            else if i >=? PyList.len (wps self) then i - 1 else i in
  0 <= i' < PyList.len (wps self)
  /\ exists (x y a : F) (tail : list F),
       wps self !! Z.to_nat i' = Some (x :: y :: a :: tail)
       /\ pubNextWaypoint now (set_index i' self)
          = Ok tt (set_index i' self)
              [waypoint_pub
                 {| cmd_stamp := now; cmd_x := x; cmd_y := y; cmd_F := a;
                    cmd_z := match tail with
                             | [] => of_int 0
                             | psi :: _ => psi
                             end;
                    cmd_mode := MODE_XPOS_YPOS_YAW_ALTITUDE |}].
Proof.
  intros Hwf Hn Hi i'.
  destruct (wrapped_target now self i Hwf Hn Hi) as (Hr & wp & c & Hwp & Hc).
  fold i' in Hr, Hwp. simpl in Hr, Hwp.
  split; [exact Hr|].
  pose proof Hwp as Hlk. rewrite getitem_nonneg in Hlk by exact Hr.
  destruct (wf_lookup self _ wp Hwf Hlk) as (x & y & a & tail & ->).
  exists x, y, a, tail. split; [exact Hlk|].
  rewrite command_of_fields in Hc. injection Hc as <-.
  apply pubNextWaypoint_run with (wp := x :: y :: a :: tail);
    [exact Hwp|apply command_of_fields].
Qed.

(** The two ways a sample on a well-formed node ends. *)
Lemma odometryCallback_two_ways now msg self wx wy wa rest :
  index_in_range self ->
  waypoints_wf self ->
  wps self !! Z.to_nat (idx self) = Some (wx :: wy :: wa :: rest) ->
  let rel := relPose_pub {| rel_x := position_x msg;
                            rel_y := position_y msg;
                            rel_z := yaw_of msg;
                            rel_F := fneg (position_z msg) |} in
  (exists c self',
     odometryCallback now msg self = Ok PyNone self' [rel; waypoint_pub c])
  \/ odometryCallback now msg self = Ok PyNone self [rel].
Proof.
  intros [Hi Hn] Hwf Hwp rel.
  assert (Hget : PyList.getitem (wps self) (idx self)
                 = Some (wx :: wy :: wa :: rest)).
  { rewrite getitem_nonneg by exact Hi. exact Hwp. }
  unfold odometryCallback. monad. rewrite Hget. simpl.
  destruct (flt _ _); [left|right; reflexivity].
  destruct (wrapped_target now self (idx self + 1) Hwf Hn)
    as (Hr & wp & c & Hwp' & Hc); [lia|].
  exists c. eexists. simpl.
  rewrite wrapWaypointIndex_run by (simpl; lia). simpl.
  erewrite pubNextWaypoint_run by (simpl; eassumption).
  reflexivity.
Qed.

(** C2: with the distance taken as the square root of the sum of the
    squared differences between (x, y, -z) and the first three
    components of the current waypoint: a sample closer than the
    threshold adds one to the index, wraps it, and publishes, after the
    relative pose, the command made of the new current waypoint's x, y,
    altitude and fourth component (0 when absent); any other sample
    leaves the node as it was and publishes the relative pose only. *)
Theorem odometryCallback_advance now msg self wx wy wa rest :
  index_in_range self ->
  waypoints_wf self ->
  waypoint_list self !! Z.to_nat (current_waypoint_index self)
    = Some (wx :: wy :: wa :: rest) ->
  let n := PyList.len (waypoint_list self) in
  let dx := fsub (position_x msg) wx in
  let dy := fsub (position_y msg) wy in
  let dz := fsub (fneg (position_z msg)) wa in
  let error :=
    fsqrt (fadd (fadd (fadd (of_int 0) (fmul dx dx)) (fmul dy dy))
             (fmul dz dz)) in
  let qw := orientation_w msg in
  let qx := orientation_x msg in
  let qy := orientation_y msg in
  let qz := orientation_z msg in
  let rel :=
    relPose_pub
      {| rel_x := position_x msg;
         rel_y := position_y msg;
         rel_z := arctan2 (fmul (of_int 2) (fadd (fmul qw qz) (fmul qx qy)))
                    (fsub (of_int 1)
                       (fmul (of_int 2) (fadd (fpow qy 2) (fpow qz 2))));
         rel_F := fneg (position_z msg) |} in
  let i' :=
    if cyclical_path self then (current_waypoint_index self + 1) `mod` n
    else if current_waypoint_index self + 1 >=? n then n - 1
         else current_waypoint_index self + 1 in
  (flt error (threshold self) = true ->
     wrapWaypointIndex (set_index (current_waypoint_index self + 1) self)
       = Ok tt (set_index i' self) []
     /\ exists (x y a : F) (tail : list F),
          waypoint_list self !! Z.to_nat i' = Some (x :: y :: a :: tail)
          /\ odometryCallback now msg self
             = Ok PyNone (set_index i' self)
                 [rel;
                  waypoint_pub
                    {| cmd_stamp := now; cmd_x := x; cmd_y := y; cmd_F := a;
                       cmd_z := match tail with
                                | [] => of_int 0
                                | psi :: _ => psi
                                end;
                       cmd_mode := MODE_XPOS_YPOS_YAW_ALTITUDE |}])
  /\ (flt error (threshold self) = false ->
        odometryCallback now msg self = Ok PyNone self [rel]).
Proof.
  intros [Hi Hn] Hwf Hwp n dx dy dz error qw qx qy qz rel i'.
  assert (Hget : PyList.getitem (wps self) (idx self)
                 = Some (wx :: wy :: wa :: rest)).
  { rewrite getitem_nonneg by exact Hi. exact Hwp. }
  assert (Herr : Np.linalg_norm [dx; dy; dz] = error) by reflexivity.
  assert (Hi' : (if cyclical_path self
                 then (idx self + 1) `mod` PyList.len (wps self)
                 else if idx self + 1 >=? PyList.len (wps self)
                      then idx self + 1 - 1 else idx self + 1) = i').
  { subst i' n. destruct (cyclical_path self); [reflexivity|].
    destruct (idx self + 1 >=? PyList.len (wps self)) eqn:E;
      [|reflexivity].
    apply Z.geb_le in E. lia. }
  split; intros Hlt.
  - destruct (wrapped_target_fields now self (idx self + 1) Hwf Hn)
      as (Hr & x & y & a & tail & Hlk & Hpub); [lia|].
    rewrite Hi' in Hr, Hlk, Hpub.
    split.
    + rewrite wrapWaypointIndex_run by (simpl; lia). simpl.
      rewrite Hi'. reflexivity.
    + exists x, y, a, tail. split; [exact Hlk|].
      revert Herr. unfold odometryCallback.
      generalize (@Np.linalg_norm F _). intros norm Herr.
      monad. rewrite Hget. simpl. fold dx dy dz. rewrite Herr, Hlt. simpl.
      rewrite wrapWaypointIndex_run by (simpl; lia). simpl.
      rewrite Hi'.
      change (set_index i' (set_index (idx self + 1) self))
        with (set_index i' self).
      rewrite Hpub. reflexivity.
  - revert Herr. unfold odometryCallback.
    generalize (@Np.linalg_norm F _). intros norm Herr.
    monad. rewrite Hget. simpl. fold dx dy dz. rewrite Herr, Hlt.
    reflexivity.
Qed.


(** C8: whenever a sample is handled, the first message sent is the
    relative pose with the sample's x and y, the yaw
    atan2(2(wz + xy), 1 - 2(y^2 + z^2)) of its quaternion and the
    negated z; it is sent once, whether or not the index advances. *)
Theorem odometryCallback_relative_pose now msg self :
  index_in_range self ->
  waypoints_wf self ->
  let qw := orientation_w msg in
  let qx := orientation_x msg in
  let qy := orientation_y msg in
  let qz := orientation_z msg in
  let rel :=
    {| rel_x := position_x msg;
       rel_y := position_y msg;
       rel_z := arctan2 (fmul (of_int 2) (fadd (fmul qw qz) (fmul qx qy)))
                  (fsub (of_int 1)
                     (fmul (of_int 2) (fadd (fpow qy 2) (fpow qz 2))));
       rel_F := fneg (position_z msg) |} in
  exists rest,
    output (odometryCallback now msg self) = relPose_pub rel :: rest
    /\ Forall (fun ev => forall r, ev <> relPose_pub r) rest.
Proof.
  intros Hinv Hwf qw qx qy qz rel.
  destruct (getitem_is_Some (wps self) (idx self) (proj1 Hinv)) as [wp Hget].
  pose proof Hget as Hwp. rewrite getitem_nonneg in Hwp by apply Hinv.
  destruct (wf_lookup self _ wp Hwf Hwp) as (wx & wy & wa & rest & ->).
  destruct (odometryCallback_two_ways now msg self wx wy wa rest Hinv Hwf Hwp)
    as [(c & self' & Hrun) | Hrun]; rewrite Hrun; simpl.
  - exists [waypoint_pub c]. split; [reflexivity|].
    repeat constructor. discriminate.
  - exists []. split; [reflexivity|constructor].
Qed.


(** *** Removing waypoints *)

Lemma delete_wf self (k : nat) :
  waypoints_wf self -> waypoints_wf (set_list (delete k (wps self)) self).
Proof.
  unfold waypoints_wf. simpl. apply Forall_delete.
Qed.

(** C4: removing the waypoint the index points to, on a list of two or
    more, returns the new length, deletes that waypoint, wraps the
    index on the shorter list and publishes the command made of the x,
    y, altitude and fourth component (0 when absent) of the waypoint
    the wrapped index points to. *)
Theorem removeWaypointCallback_current now req self :
  index_in_range self ->
  waypoints_wf self ->
  2 <= PyList.len (waypoint_list self) ->
  remove_index req = current_waypoint_index self ->
  let l' := delete (Z.to_nat (current_waypoint_index self))
              (waypoint_list self) in
  let n' := PyList.len (waypoint_list self) - 1 in
  let i' :=
    if cyclical_path self then current_waypoint_index self `mod` n'
    else if current_waypoint_index self >=? n' then n' - 1
         else current_waypoint_index self in
  PyList.len l' = n'
  /\ 0 <= i' < n'
  /\ wrapWaypointIndex (set_list l' self)
     = Ok tt (set_index i' (set_list l' self)) []
  /\ exists (x y a : F) (tail : list F),
       l' !! Z.to_nat i' = Some (x :: y :: a :: tail)
       /\ removeWaypointCallback now req self
          = Ok (PyInt n') (set_index i' (set_list l' self))
              [waypoint_pub
                 {| cmd_stamp := now; cmd_x := x; cmd_y := y; cmd_F := a;
                    cmd_z := match tail with
                             | [] => of_int 0
                             | psi :: _ => psi
                             end;
                    cmd_mode := MODE_XPOS_YPOS_YAW_ALTITUDE |}].
Proof.
  intros [Hi Hn] Hwf H2 Hreq l' n' i'.
  pose proof (delitem_nonneg (wps self) (idx self) Hi) as Hdel.
  fold l' in Hdel.
  pose proof (delitem_len _ _ _ Hdel) as Hlen. fold n' in Hlen.
  pose proof (delete_wf self (Z.to_nat (idx self)) Hwf) as Hwf'.
  fold l' in Hwf'.
  assert (Hi' : (if cyclical_path self then idx self `mod` PyList.len l'
                 else if idx self >=? PyList.len l'
                      then idx self - 1 else idx self) = i').
  { subst i'. rewrite Hlen. destruct (cyclical_path self); [reflexivity|].
    destruct (idx self >=? n') eqn:E; [|reflexivity].
    apply Z.geb_le in E. lia. }
  destruct (wrapped_target_fields now (set_list l' self) (idx self) Hwf')
    as (Hr & x & y & a & tail & Hlk & Hpub); simpl; try lia.
  simpl in Hr, Hlk, Hpub. rewrite Hi' in Hr, Hlk, Hpub.
  split; [exact Hlen|]. split; [lia|]. split.
  - rewrite wrapWaypointIndex_run by (simpl; lia). simpl.
    rewrite Hi'. reflexivity.
  - exists x, y, a, tail. split; [exact Hlk|].
    unfold removeWaypointCallback. monad.
    destruct (Z.eqb_spec (PyList.len (wps self)) 1); [lia|].
    destruct (Z.geb_spec (remove_index req) (PyList.len (wps self))); [lia|].
    rewrite Hreq, Hdel. simpl. rewrite Z.eqb_refl. simpl.
    rewrite wrapWaypointIndex_run by (simpl; lia). simpl.
    rewrite Hi', Hpub. simpl. rewrite Hlen. reflexivity.
Qed.

(** C10: on a list of two or more, a negative index from -len to -1 is
    not turned down: the waypoint at position len + index is deleted
    and the new length returned, with no warning. *)
Theorem removeWaypointCallback_negative_index now req self :
  index_in_range self ->
  2 <= PyList.len (waypoint_list self) ->
  - PyList.len (waypoint_list self) <= remove_index req <= -1 ->
  exists self',
    removeWaypointCallback now req self
      = Ok (PyInt (PyList.len (waypoint_list self) - 1)) self' []
    /\ waypoint_list self'
         = delete (Z.to_nat (PyList.len (waypoint_list self)
                             + remove_index req))
             (waypoint_list self)
    /\ PyList.len (waypoint_list self')
         = PyList.len (waypoint_list self) - 1.
Proof.
  intros [Hi Hn] H2 Hreq.
  pose proof (delitem_negative (wps self) (remove_index req) Hreq) as Hdel.
  pose proof (delitem_len _ _ _ Hdel) as Hlen.
  unfold removeWaypointCallback. monad.
  destruct (Z.eqb_spec (PyList.len (wps self)) 1); [lia|].
  destruct (Z.geb_spec (remove_index req) (PyList.len (wps self))); [lia|].
  rewrite Hdel. simpl.
  destruct (Z.eqb_spec (remove_index req) (idx self)); [lia|].
  destruct (idx self >=? _); simpl; rewrite Hlen; eexists; eauto.
Qed.

(** C7 (as the code has it): with a single waypoint the request is
    turned down for every index: the warning is logged, list and index
    stay as they were, and the handler returns the length 1. *)
Theorem removeWaypointCallback_only_waypoint now req self :
  PyList.len (waypoint_list self) = 1 ->
  removeWaypointCallback now req self
    = Ok (PyInt 1) self [logwarn "Cannot Remove Only Waypoint"].
Proof.
  intros H1. unfold removeWaypointCallback. monad.
  rewrite H1. reflexivity.
Qed.

(** An index at or past the length is turned down on a longer list. *)
Lemma removeWaypointCallback_out_of_range now req self :
  PyList.len (wps self) <> 1 ->
  PyList.len (wps self) <= remove_index req ->
  removeWaypointCallback now req self
    = Ok PyNone self [logwarn "Waypoint Index Out of Range"].
Proof.
  intros H1 Hreq. unfold removeWaypointCallback. monad.
  destruct (Z.eqb_spec (PyList.len (wps self)) 1); [lia|].
  destruct (Z.geb_spec (remove_index req) (PyList.len (wps self))); [|lia].
  reflexivity.
Qed.


(** *** Well-formed waypoints stay well-formed *)

Lemma insert_wf self (i : Z) (wp : list F) :
  (3 <= length wp)%nat -> waypoints_wf self ->
  waypoints_wf (set_list (PyList.insert i wp (wps self)) self).
Proof.
  unfold waypoints_wf, PyList.insert. simpl. intros Hwp Hwf.
  apply Forall_app. split.
  - now apply Forall_take.
  - constructor; [exact Hwp|now apply Forall_drop].
Qed.

Lemma step_wf self c : waypoints_wf self -> waypoints_wf (step self c).
Proof.
  intros Hwf. unfold step. destruct c as [req|now req| | |now msg]; simpl.
  - unfold addWaypointCallback. monad.
    destruct (insertion_index self req) as [index|]; simpl; [|exact Hwf].
    pose proof (insert_wf self index (new_waypoint_of req)) as Hins.
    destruct (idx self >=? index); simpl; apply Hins; simpl; auto.
  - unfold removeWaypointCallback. monad.
    destruct (PyList.len (wps self) =? 1); simpl; [exact Hwf|].
    destruct (remove_index req >=? PyList.len (wps self)); simpl;
      [exact Hwf|].
    unfold PyList.delitem.
    destruct (_ && _); simpl; [|exact Hwf].
    match goal with
    | |- context [delete ?k (wps self)] =>
        pose proof (delete_wf self k Hwf) as Hdel;
        set (l' := delete k (wps self)) in *
    end.
    destruct (remove_index req =? idx self); simpl.
    + unfold wrapWaypointIndex. monad.
      destruct (cyclical_path self); simpl.
      * destruct (PyList.len l' =? 0); simpl; [exact Hdel|].
        match goal with
        | |- context [pubNextWaypoint now ?s] =>
            pose proof (pubNextWaypoint_state now s) as Hpub;
            destruct (pubNextWaypoint now s); simpl in *; subst
        end; exact Hdel.
      * destruct (idx self >=? PyList.len l'); simpl;
          match goal with
          | |- context [pubNextWaypoint now ?s] =>
              pose proof (pubNextWaypoint_state now s) as Hpub;
              destruct (pubNextWaypoint now s); simpl in *; subst
          end; exact Hdel.
    + destruct (idx self >=? PyList.len l'); exact Hdel.
  - exact Hwf.
  - exact Hwf.
  - unfold odometryCallback. monad.
    destruct (PyList.getitem _ _); simpl; [|exact Hwf].
    destruct (Np.sub _ _); simpl; [|exact Hwf].
    destruct (flt _ _); simpl; [|exact Hwf].
    unfold wrapWaypointIndex. monad.
    destruct (cyclical_path self); simpl.
    + destruct (PyList.len (wps self) =? 0); simpl; [exact Hwf|].
      match goal with
      | |- context [pubNextWaypoint now ?s] =>
          pose proof (pubNextWaypoint_state now s) as Hpub;
          destruct (pubNextWaypoint now s); simpl in *; subst
      end; exact Hwf.
    + destruct (idx self + 1 >=? PyList.len (wps self)); simpl;
        match goal with
        | |- context [pubNextWaypoint now ?s] =>
            pose proof (pubNextWaypoint_state now s) as Hpub;
            destruct (pubNextWaypoint now s); simpl in *; subst
        end; exact Hwf.
Qed.

(** A node that [__init__] has set up is a starting point of
    [reachable]. *)
Lemma init_reachable (waypoints : list (list F)) thr cycle now self out :
  init waypoints thr cycle now = Ok tt self out ->
  reachable self /\ wps self = waypoints /\ idx self = 0.
Proof.
  unfold init. monad.
  destruct waypoints as [|wp0 l]; [discriminate|].
  change (PyList.getitem (wp0 :: l) 0) with (Some wp0). simpl.
  destruct (command_of now wp0); simpl; [|discriminate].
  intros [= <- <-]. split; [|split; reflexivity].
  apply reachable_init; [discriminate|reflexivity].
Qed.


(** *** Adding waypoints *)

Lemma insertion_index_range self req index :
  insertion_index self req = Some index ->
  index <= PyList.len (wps self)
  /\ (add_index req = -1 -> index = PyList.len (wps self))
  /\ (add_index req <> -1 -> index = add_index req).
Proof.
  unfold insertion_index.
  destruct (Z.eqb_spec (add_index req) (-1)).
  - intros [= <-]. repeat split; [lia|congruence].
  - destruct (Z.gtb_spec (add_index req) (PyList.len (wps self)));
      [discriminate|].
    intros [= <-]. repeat split; [lia|congruence].
Qed.

Lemma addWaypointCallback_run req self index :
  insertion_index self req = Some index ->
  addWaypointCallback req self =
    Ok (PyInt (PyList.len (wps self) + 1))
       (set_index (if idx self >=? index then idx self + 1 else idx self)
          (set_list (PyList.insert index (new_waypoint_of req) (wps self))
             self))
       [loginfo "Added New Waypoint"].
Proof.
  intros Hins. unfold addWaypointCallback. monad. rewrite Hins. simpl.
  destruct (idx self >=? index); simpl; rewrite insert_len;
    [reflexivity|].
  now destruct self.
Qed.

(** X22: an add that goes through returns the new length, one more than
    before.  An insertion index at or before the current index moves
    the current index up by one, a later one (the sentinel -1 stands
    for the end of the list) leaves it; for an insertion index that is
    not negative the index still points to the same waypoint. *)
Theorem addWaypointCallback_index_bookkeeping req self index :
  index_in_range self ->
  insertion_index self req = Some index ->
  exists self',
    addWaypointCallback req self
      = Ok (PyInt (PyList.len (waypoint_list self')))
           self' [loginfo "Added New Waypoint"]
    /\ waypoint_list self'
         = PyList.insert index (new_waypoint_of req) (waypoint_list self)
    /\ PyList.len (waypoint_list self')
         = PyList.len (waypoint_list self) + 1
    /\ (index <= current_waypoint_index self ->
          current_waypoint_index self' = current_waypoint_index self + 1)
    /\ (current_waypoint_index self < index ->
          current_waypoint_index self' = current_waypoint_index self)
    /\ (add_index req = -1 ->
          current_waypoint_index self' = current_waypoint_index self
          /\ waypoint_list self'
               = waypoint_list self ++ [new_waypoint_of req])
    /\ (0 <= index ->
          waypoint_list self' !! Z.to_nat (current_waypoint_index self')
            = waypoint_list self !! Z.to_nat (current_waypoint_index self)).
Proof.
  intros [Hi Hn] Hins.
  destruct (insertion_index_range self req index Hins) as (Hle & Hm1 & Hne).
  exists (set_index (if idx self >=? index then idx self + 1 else idx self)
            (set_list (PyList.insert index (new_waypoint_of req) (wps self))
               self)).
  split.
  { rewrite (addWaypointCallback_run req self index Hins).
    simpl. rewrite insert_len. reflexivity. }
  simpl. split; [reflexivity|]. split; [apply insert_len|].
  split; [|split; [|split]].
  - intros Hc. destruct (Z.geb_spec (idx self) index); [reflexivity|lia].
  - intros Hc. destruct (Z.geb_spec (idx self) index); [lia|reflexivity].
  - intros Hs. specialize (Hm1 Hs). subst index.
    destruct (Z.geb_spec (idx self) (PyList.len (wps self))); [lia|].
    split; [reflexivity|apply insert_append].
  - intros H0.
    destruct (Z.geb_spec (idx self) index).
    + replace (Z.to_nat (idx self + 1)) with (S (Z.to_nat (idx self)))
        by lia.
      apply insert_lookup_after; lia.
    + apply insert_lookup_before; lia.
Qed.

(** An index past the end is turned down: warning, [None], nothing
    written. *)
Lemma addWaypointCallback_past_end req self :
  PyList.len (wps self) < add_index req ->
  addWaypointCallback req self
    = Ok PyNone self [logwarn "Waypoint Index Out of Range"].
Proof.
  intros Hreq. unfold addWaypointCallback, insertion_index. monad.
  destruct (Z.eqb_spec (add_index req) (-1)).
  { pose proof (Zle_0_nat (length (wps self))). unfold PyList.len in *. lia. }
  destruct (Z.gtb_spec (add_index req) (PyList.len (wps self))); [|lia].
  reflexivity.
Qed.

(** A negative index other than -1 is not turned down. *)
Lemma addWaypointCallback_below_sentinel req self :
  add_index req < -1 ->
  addWaypointCallback req self =
    Ok (PyInt (PyList.len (wps self) + 1))
       (set_index (if idx self >=? add_index req
                   then idx self + 1 else idx self)
          (set_list (PyList.insert (add_index req) (new_waypoint_of req)
                       (wps self)) self))
       [loginfo "Added New Waypoint"].
Proof.
  intros Hreq. apply addWaypointCallback_run. unfold insertion_index.
  destruct (Z.eqb_spec (add_index req) (-1)); [lia|].
  destruct (Z.gtb_spec (add_index req) (PyList.len (wps self))); [|easy].
  pose proof (Zle_0_nat (length (wps self))). unfold PyList.len in *. lia.
Qed.

(** *** Listing waypoints *)

(** C9 (as the code has it): [listWaypoints] prints the whole list in
    order, writes no field and never raises; what it returns is
    [True], not the list. *)
Theorem listWaypoints_prints self :
  listWaypoints self
    = Ok (PyBool true) self [print_waypoints (waypoint_list self)].
Proof. reflexivity. Qed.


(** *** Start-up and the published command *)

(** X1: [__init__] on a list whose first waypoint has x, y and altitude
    sends the all-zero relative pose and then the command of waypoint
    0, whose [z] is the fourth component when there is one and 0
    otherwise; the index starts at 0. *)
Theorem init_publishes_first_target
    (x y a : F) (tail : list F) (others : list (list F)) thr cycle now :
  init ((x :: y :: a :: tail) :: others) thr cycle now
  = Ok tt
      {| waypoint_list := (x :: y :: a :: tail) :: others;
         current_waypoint_index := 0;
         threshold := thr; cyclical_path := cycle |}
      [relPose_pub {| rel_x := of_int 0; rel_y := of_int 0;
                      rel_z := of_int 0; rel_F := of_int 0 |};
       waypoint_pub
         {| cmd_stamp := now; cmd_x := x; cmd_y := y; cmd_F := a;
            cmd_z := match tail with [] => of_int 0 | psi :: _ => psi end;
            cmd_mode := MODE_XPOS_YPOS_YAW_ALTITUDE |}].
Proof.
  pose proof (command_of_fields now x y a tail) as Hc.
  revert Hc. unfold init. generalize (command_of now). intros cmd Hc.
  monad.
  change (PyList.getitem ((x :: y :: a :: tail) :: others) 0)
    with (Some (x :: y :: a :: tail)).
  simpl. rewrite Hc. reflexivity.
Qed.

(** X2: [__init__] raises [IndexError] when the list is empty or its first
    waypoint has fewer than three components; by then only the all-zero
    relative pose has been sent, no command. *)
Theorem init_raises_without_first_target
    (waypoints : list (list F)) thr cycle now :
  match waypoints with
  | [] => True
  | wp0 :: _ => (length wp0 < 3)%nat
  end ->
  init waypoints thr cycle now
  = Raise IndexError
      {| waypoint_list := waypoints; current_waypoint_index := 0;
         threshold := thr; cyclical_path := cycle |}
      [relPose_pub {| rel_x := of_int 0; rel_y := of_int 0;
                      rel_z := of_int 0; rel_F := of_int 0 |}].
Proof.
  intros Hw. destruct waypoints as [|wp0 others]; [reflexivity|].
  pose proof (command_of_short now wp0 Hw) as Hc.
  revert Hc. unfold init. generalize (command_of now). intros cmd Hc.
  monad.
  change (PyList.getitem (wp0 :: others) 0) with (Some wp0).
  simpl. rewrite Hc. reflexivity.
Qed.

(** X3: With the index in range, [pubNextWaypoint] publishes exactly one
    command, built from the current waypoint (x, y, altitude and the
    fourth component or 0), stamped with the current time, and writes
    no field. *)
Theorem pubNextWaypoint_publishes_current now self
    (x y a : F) (tail : list F) :
  0 <= current_waypoint_index self < PyList.len (waypoint_list self) ->
  waypoint_list self !! Z.to_nat (current_waypoint_index self)
    = Some (x :: y :: a :: tail) ->
  pubNextWaypoint now self
  = Ok tt self
      [waypoint_pub
         {| cmd_stamp := now; cmd_x := x; cmd_y := y; cmd_F := a;
            cmd_z := match tail with [] => of_int 0 | psi :: _ => psi end;
            cmd_mode := MODE_XPOS_YPOS_YAW_ALTITUDE |}].
Proof.
  intros Hi Hwp. apply pubNextWaypoint_run with (wp := x :: y :: a :: tail).
  - rewrite getitem_nonneg by exact Hi. exact Hwp.
  - apply command_of_fields.
Qed.

(** X4: A current waypoint with fewer than three components makes
    [pubNextWaypoint] raise [IndexError] with nothing published. *)
Theorem pubNextWaypoint_short_waypoint now self (wp : list F) :
  0 <= current_waypoint_index self < PyList.len (waypoint_list self) ->
  waypoint_list self !! Z.to_nat (current_waypoint_index self) = Some wp ->
  (length wp < 3)%nat ->
  pubNextWaypoint now self = Raise IndexError self [].
Proof.
  intros Hi Hwp Hlen.
  assert (Hget : PyList.getitem (wps self) (idx self) = Some wp)
    by (rewrite getitem_nonneg by exact Hi; exact Hwp).
  pose proof (command_of_short now wp Hlen) as Hc.
  unfold pubNextWaypoint. monad.
  rewrite Hget. simpl. rewrite Hc. reflexivity.
Qed.


(** *** More on adding waypoints *)

(** X5: An add fails exactly when the index is past the end of the list;
    then the warning is logged and no field is written.  Every other
    index, negative ones included, goes through. *)
Theorem addWaypointCallback_failed_iff req self :
  (failed (addWaypointCallback req self)
   <-> PyList.len (waypoint_list self) < add_index req)
  /\ (failed (addWaypointCallback req self) ->
        addWaypointCallback req self
        = Ok PyNone self [logwarn "Waypoint Index Out of Range"]).
Proof.
  destruct (Z.lt_ge_cases (PyList.len (wps self)) (add_index req)) as [Hlt|Hge].
  - rewrite (addWaypointCallback_past_end req self Hlt). simpl.
    split; [tauto|reflexivity].
  - assert (Hins : exists index, insertion_index self req = Some index).
    { unfold insertion_index.
      destruct (add_index req =? -1); [eauto|].
      destruct (Z.gtb_spec (add_index req) (PyList.len (wps self)));
        [lia|eauto]. }
    destruct Hins as [index Hins].
    rewrite (addWaypointCallback_run req self index Hins). simpl.
    split; [split; [tauto|lia]|tauto].
Qed.

(** X6: After an add at an index from 0 to the length, the new waypoint
    [x, y, z, psi] is found at that index, the waypoints before it are
    where they were and those from it on are one position further. *)
Theorem addWaypointCallback_places_waypoint req self :
  0 <= add_index req <= PyList.len (waypoint_list self) ->
  let l' := waypoint_list (final_state (addWaypointCallback req self)) in
  PyList.getitem l' (add_index req)
    = Some [add_x req; add_y req; add_z req; add_psi req]
  /\ (forall k, 0 <= k < add_index req ->
        PyList.getitem l' k = PyList.getitem (waypoint_list self) k)
  /\ (forall k, add_index req <= k < PyList.len (waypoint_list self) ->
        PyList.getitem l' (k + 1) = PyList.getitem (waypoint_list self) k).
Proof.
  intros Hi l'.
  assert (Hins : insertion_index self req = Some (add_index req)).
  { unfold insertion_index.
    destruct (Z.eqb_spec (add_index req) (-1)); [lia|].
    destruct (Z.gtb_spec (add_index req) (PyList.len (wps self)));
      [lia|reflexivity]. }
  assert (Hl' : l' = PyList.insert (add_index req) (new_waypoint_of req)
                       (wps self)).
  { subst l'. rewrite (addWaypointCallback_run req self _ Hins).
    reflexivity. }
  rewrite Hl'. clear Hl' l'.
  split; [|split].
  - rewrite getitem_nonneg by (rewrite insert_len; lia).
    now apply insert_lookup_new.
  - intros k Hk.
    rewrite getitem_nonneg by (rewrite insert_len; lia).
    rewrite (getitem_nonneg (wps self)) by lia.
    apply insert_lookup_before; lia.
  - intros k Hk.
    rewrite getitem_nonneg by (rewrite insert_len; lia).
    rewrite (getitem_nonneg (wps self)) by lia.
    replace (Z.to_nat (k + 1)) with (S (Z.to_nat k)) by lia.
    apply insert_lookup_after; lia.
Qed.

(** X7: The sentinel -1 always appends: the list becomes the old one
    followed by the new waypoint and the length returned is one
    more. *)
Theorem addWaypointCallback_appends req self :
  add_index req = -1 ->
  exists self',
    addWaypointCallback req self
    = Ok (PyInt (PyList.len (waypoint_list self) + 1)) self'
        [loginfo "Added New Waypoint"]
    /\ waypoint_list self'
       = waypoint_list self ++ [[add_x req; add_y req; add_z req;
                                 add_psi req]].
Proof.
  intros Hreq.
  assert (Hins : insertion_index self req = Some (PyList.len (wps self))).
  { unfold insertion_index. rewrite Hreq. reflexivity. }
  eexists. split.
  - apply (addWaypointCallback_run req self _ Hins).
  - simpl. apply insert_append.
Qed.

(** Removing at an index that is not the current one. *)
Lemma removeWaypointCallback_other_run now req self
    (l' : list (@Waypoint F)) :
  PyList.len (wps self) <> 1 ->
  remove_index req < PyList.len (wps self) ->
  PyList.delitem (wps self) (remove_index req) = Some l' ->
  remove_index req <> idx self ->
  removeWaypointCallback now req self
  = Ok (PyInt (PyList.len l'))
      (set_index (if idx self >=? PyList.len l'
                  then idx self - 1 else idx self)
         (set_list l' self)) [].
Proof.
  intros H1 Hlt Hdel Hne. unfold removeWaypointCallback. monad.
  destruct (Z.eqb_spec (PyList.len (wps self)) 1); [lia|].
  destruct (Z.geb_spec (remove_index req) (PyList.len (wps self))); [lia|].
  rewrite Hdel. simpl.
  destruct (Z.eqb_spec (remove_index req) (idx self)); [lia|].
  destruct (idx self >=? PyList.len l'); [reflexivity|].
  simpl. now destruct self.
Qed.

(** X8: Adding at an index from 0 to the length and then removing at the
    same index gives the list back and publishes nothing.  The current
    index comes back too, except when the insertion was at or before
    it and it was not the last: then it ends one further. *)
Theorem add_then_remove req now self :
  index_in_range self ->
  0 <= add_index req <= PyList.len (waypoint_list self) ->
  let self1 := final_state (addWaypointCallback req self) in
  exists self2,
    removeWaypointCallback now {| remove_index := add_index req |} self1
    = Ok (PyInt (PyList.len (waypoint_list self))) self2 []
    /\ waypoint_list self2 = waypoint_list self
    /\ current_waypoint_index self2
       = (if (add_index req <=? current_waypoint_index self)
              && (current_waypoint_index self
                    <? PyList.len (waypoint_list self) - 1)
          then current_waypoint_index self + 1
          else current_waypoint_index self).
Proof.
  intros [Hi Hn] Hreq self1.
  assert (Hins : insertion_index self req = Some (add_index req)).
  { unfold insertion_index.
    destruct (Z.eqb_spec (add_index req) (-1)); [lia|].
    destruct (Z.gtb_spec (add_index req) (PyList.len (wps self)));
      [lia|reflexivity]. }
  subst self1. rewrite (addWaypointCallback_run req self _ Hins).
  cbn [final_state].
  pose proof (delitem_insert (add_index req) (new_waypoint_of req)
                (wps self) Hreq) as Hdel.
  eexists. split; [|split].
  - apply (removeWaypointCallback_other_run now
             {| remove_index := add_index req |} _ (wps self)); simpl.
    + rewrite insert_len. lia.
    + rewrite insert_len. lia.
    + exact Hdel.
    + destruct (Z.geb_spec (idx self) (add_index req)); simpl; lia.
  - reflexivity.
  - simpl.
    destruct (Z.geb_spec (idx self) (add_index req));
      destruct (Z.leb_spec (add_index req) (idx self)); try lia; simpl.
    + destruct (Z.geb_spec (idx self + 1) (PyList.len (wps self)));
        destruct (Z.ltb_spec (idx self) (PyList.len (wps self) - 1)); lia.
    + destruct (Z.geb_spec (idx self) (PyList.len (wps self))); lia.
Qed.

(** Removing the current waypoint on a well-formed node ends normally
    with one command published. *)
Lemma removeWaypointCallback_current_run now req self :
  index_in_range self ->
  waypoints_wf self ->
  2 <= PyList.len (wps self) ->
  remove_index req = idx self ->
  exists self' c,
    removeWaypointCallback now req self
    = Ok (PyInt (PyList.len (wps self) - 1)) self' [waypoint_pub c].
Proof.
  intros [Hi Hn] Hwf H2 Hreq.
  pose proof (delitem_nonneg (wps self) (idx self) Hi) as Hdel.
  pose proof (delitem_len _ _ _ Hdel) as Hlen.
  pose proof (delete_wf self (Z.to_nat (idx self)) Hwf) as Hwf'.
  destruct (wrapped_target now
              (set_list (delete (Z.to_nat (idx self)) (wps self)) self)
              (idx self) Hwf')
    as (Hr & wp & c & Hwp & Hc); simpl; try lia.
  simpl in Hr, Hwp.
  eexists _, c.
  unfold removeWaypointCallback. monad.
  destruct (Z.eqb_spec (PyList.len (wps self)) 1); [lia|].
  destruct (Z.geb_spec (remove_index req) (PyList.len (wps self))); [lia|].
  rewrite Hreq, Hdel. simpl. rewrite Z.eqb_refl. simpl.
  rewrite wrapWaypointIndex_run by (simpl; lia). simpl.
  erewrite pubNextWaypoint_run by (simpl; eassumption).
  simpl. rewrite Hlen. reflexivity.
Qed.


(** *** More on removing waypoints *)

(** X9: On a list that is not a single waypoint, an index at or past the
    length is turned down: the warning is logged, [None] is returned
    and no field is written. *)
Theorem removeWaypointCallback_past_end now req self :
  PyList.len (waypoint_list self) <> 1 ->
  PyList.len (waypoint_list self) <= remove_index req ->
  removeWaypointCallback now req self
  = Ok PyNone self [logwarn "Waypoint Index Out of Range"].
Proof. exact (removeWaypointCallback_out_of_range now req self). Qed.

(** X10: An index below -len is not caught by the range test: the deletion
    itself raises [IndexError]; nothing is logged, published or
    written. *)
Theorem removeWaypointCallback_below_range now req self :
  PyList.len (waypoint_list self) <> 1 ->
  remove_index req < - PyList.len (waypoint_list self) ->
  removeWaypointCallback now req self = Raise IndexError self [].
Proof.
  intros H1 Hreq. pose proof (Zle_0_nat (length (wps self))) as H0.
  pose proof (delitem_below (remove_index req) (wps self) Hreq) as Hdel.
  unfold removeWaypointCallback. monad.
  destruct (Z.eqb_spec (PyList.len (wps self)) 1); [lia|].
  destruct (Z.geb_spec (remove_index req) (PyList.len (wps self)));
    [unfold PyList.len in *; lia|].
  rewrite Hdel. reflexivity.
Qed.

(** X11: Removing at an index (negative ones counted from the end) that is
    not numerically the current index deletes that position, returns
    the new length and publishes nothing; the current index goes down
    by one only when it was the last position. *)
Theorem removeWaypointCallback_other_index now req self :
  index_in_range self ->
  2 <= PyList.len (waypoint_list self) ->
  - PyList.len (waypoint_list self) <= remove_index req
    < PyList.len (waypoint_list self) ->
  remove_index req <> current_waypoint_index self ->
  let n := PyList.len (waypoint_list self) in
  let k := if remove_index req <? 0 then n + remove_index req
           else remove_index req in
  exists self',
    removeWaypointCallback now req self = Ok (PyInt (n - 1)) self' []
    /\ waypoint_list self' = delete (Z.to_nat k) (waypoint_list self)
    /\ current_waypoint_index self'
       = (if current_waypoint_index self =? n - 1
          then current_waypoint_index self - 1
          else current_waypoint_index self).
Proof.
  intros [Hi Hn] H2 Hreq Hne n k.
  assert (Hdel : PyList.delitem (wps self) (remove_index req)
                 = Some (delete (Z.to_nat k) (wps self))).
  { subst k n. destruct (Z.ltb_spec (remove_index req) 0).
    - apply delitem_negative. lia.
    - apply delitem_nonneg. lia. }
  pose proof (delitem_len _ _ _ Hdel) as Hlen.
  eexists. split; [|split].
  - rewrite (removeWaypointCallback_other_run now req self _
               ltac:(lia) ltac:(lia) Hdel Hne).
    rewrite Hlen. reflexivity.
  - reflexivity.
  - cbn [current_waypoint_index set_index]. subst n.
    destruct (Z.geb_spec (idx self) (PyList.len (wps self) - 1));
      destruct (Z.eqb_spec (idx self) (PyList.len (wps self) - 1)); lia.
Qed.

(** X12: Which waypoint the index points to after such a removal.  With the
    deleted position after the current one, or with the current one
    last and the deleted one before it, it is the same waypoint as
    before.  With the deleted position at or before a current index
    that is not the last, it is the waypoint that followed the old
    target; deleting the last position while it is current leaves the
    one before it.  No command is published in any of these cases. *)
Theorem removeWaypointCallback_other_target now req self :
  index_in_range self ->
  2 <= PyList.len (waypoint_list self) ->
  - PyList.len (waypoint_list self) <= remove_index req
    < PyList.len (waypoint_list self) ->
  remove_index req <> current_waypoint_index self ->
  let l := waypoint_list self in
  let n := PyList.len l in
  let i := current_waypoint_index self in
  let k := if remove_index req <? 0 then n + remove_index req
           else remove_index req in
  let self' := final_state (removeWaypointCallback now req self) in
  let target' :=
    waypoint_list self' !! Z.to_nat (current_waypoint_index self') in
  output (removeWaypointCallback now req self) = []
  /\ (i < k -> target' = l !! Z.to_nat i)
  /\ (k < i -> i = n - 1 -> target' = l !! Z.to_nat i)
  /\ (k <= i -> i < n - 1 -> target' = l !! Z.to_nat (i + 1))
  /\ (k = i -> i = n - 1 -> target' = l !! Z.to_nat (i - 1)).
Proof.
  intros [Hi Hn] H2 Hreq Hne l n i k self' target'.
  assert (Hdel : PyList.delitem (wps self) (remove_index req)
                 = Some (delete (Z.to_nat k) (wps self))).
  { subst k n l. destruct (Z.ltb_spec (remove_index req) 0).
    - apply delitem_negative. lia.
    - apply delitem_nonneg. lia. }
  pose proof (delitem_len _ _ _ Hdel) as Hlen.
  assert (Hk : 0 <= k < n)
    by (subst k n l; destruct (Z.ltb_spec (remove_index req) 0); lia).
  subst target' self'.
  rewrite (removeWaypointCallback_other_run now req self _
             ltac:(lia) ltac:(lia) Hdel Hne).
  cbn [final_state output waypoint_list current_waypoint_index
       set_index set_list].
  rewrite Hlen. fold l n i.
  split; [reflexivity|].
  assert (H2' : 2 <= n) by exact H2.
  assert (Hi' : 0 <= i < n) by exact Hi.
  clearbody n i.
  destruct (Z.geb_spec i (n - 1)); repeat split; intros; try lia.
  all: first
    [ rewrite list_lookup_delete_lt by lia; reflexivity
    | rewrite list_lookup_delete_ge by lia; f_equal; lia ].
Qed.

(** X13: On a node with the index in range and well-formed waypoints, a
    removal fails exactly when the list has more than one waypoint and
    the index is at or past the length or below -len; a failed removal
    writes no field and publishes nothing. *)
Theorem removeWaypointCallback_failed_iff now req self :
  index_in_range self ->
  waypoints_wf self ->
  let n := PyList.len (waypoint_list self) in
  (failed (removeWaypointCallback now req self)
   <-> n <> 1 /\ (n <= remove_index req \/ remove_index req < - n))
  /\ (failed (removeWaypointCallback now req self) ->
        final_state (removeWaypointCallback now req self) = self
        /\ existsb is_waypoint_pub
             (output (removeWaypointCallback now req self)) = false).
Proof.
  intros Hinv Hwf n. subst n. destruct Hinv as [Hi Hn].
  destruct (Z.eq_dec (PyList.len (wps self)) 1) as [H1|H1].
  { assert (Hrun : removeWaypointCallback now req self
                   = Ok (PyInt 1) self [logwarn "Cannot Remove Only Waypoint"]).
    { unfold removeWaypointCallback. monad. rewrite H1. reflexivity. }
    rewrite Hrun. simpl. split; [split; [tauto|lia]|tauto]. }
  destruct (Z_le_gt_dec (PyList.len (wps self)) (remove_index req)) as [Hge|Hlt].
  { rewrite (removeWaypointCallback_out_of_range now req self H1 Hge).
    simpl. split; [split; [intros _; split; [exact H1|now left]|tauto]|].
    intros _. split; reflexivity. }
  destruct (Z_lt_ge_dec (remove_index req) (- PyList.len (wps self)))
    as [Hlow|Hlow].
  { assert (Hrun : removeWaypointCallback now req self
                   = Raise IndexError self []).
    { pose proof (delitem_below (remove_index req) (wps self) Hlow) as Hdel.
      unfold removeWaypointCallback. monad.
      destruct (Z.eqb_spec (PyList.len (wps self)) 1); [lia|].
      destruct (Z.geb_spec (remove_index req) (PyList.len (wps self)));
        [lia|].
      rewrite Hdel. reflexivity. }
    rewrite Hrun. simpl.
    split; [split; [intros _; split; [exact H1|now right]|tauto]|].
    intros _. split; reflexivity. }
  assert (Hnf : ~ failed (removeWaypointCallback now req self)).
  { destruct (Z.eq_dec (remove_index req) (idx self)) as [Heq|Hne].
    - destruct (removeWaypointCallback_current_run now req self
                  (conj Hi Hn) Hwf ltac:(lia) Heq) as (self' & c & Hrun).
      rewrite Hrun. simpl. tauto.
    - assert (Hdel : exists l', PyList.delitem (wps self) (remove_index req)
                                = Some l').
      { destruct (Z.ltb_spec (remove_index req) 0).
        - rewrite delitem_negative by lia. eauto.
        - rewrite delitem_nonneg by lia. eauto. }
      destruct Hdel as [l' Hdel].
      rewrite (removeWaypointCallback_other_run now req self l'
                 H1 ltac:(lia) Hdel Hne).
      simpl. tauto. }
  split; [split; [tauto|lia]|tauto].
Qed.


(** *** What the calls leave alone *)

Lemma pubNextWaypoint_output now self :
  output (pubNextWaypoint now self) = []
  \/ exists c, output (pubNextWaypoint now self) = [waypoint_pub c].
Proof.
  unfold pubNextWaypoint. monad.
  destruct (PyList.getitem _ _) as [wp|]; simpl; [|now left].
  destruct (command_of now wp) as [c|]; simpl; [right; eauto|now left].
Qed.

Ltac pub_cases now :=
  match goal with
  | |- context [pubNextWaypoint now ?s] =>
      let Hst := fresh "Hst" in
      let Hout := fresh "Hout" in
      pose proof (pubNextWaypoint_state now s) as Hst;
      pose proof (pubNextWaypoint_output now s) as Hout;
      destruct (pubNextWaypoint now s); simpl in *; subst;
      destruct Hout as [->|[? ->]]
  end.

(** Every call ends in a state that differs from the one it started in
    at most in the list and the index. *)
Lemma step_shape self c :
  exists i l, step self c = set_index i (set_list l self).
Proof.
  assert (Hid : forall s : WaypointManager F,
             s = set_index (idx s) (set_list (wps s) s))
    by (now intros []).
  unfold step. destruct c as [req|now req| | |now msg]; simpl.
  - unfold addWaypointCallback. monad.
    destruct (insertion_index self req) as [index|]; simpl;
      [|eexists _, _; apply Hid].
    destruct (idx self >=? index); simpl; eexists _, _; reflexivity.
  - unfold removeWaypointCallback. monad.
    destruct (PyList.len (wps self) =? 1); simpl;
      [eexists _, _; apply Hid|].
    destruct (remove_index req >=? PyList.len (wps self)); simpl;
      [eexists _, _; apply Hid|].
    destruct (PyList.delitem _ _) as [l'|]; simpl;
      [|eexists _, _; apply Hid].
    destruct (remove_index req =? idx self); simpl.
    + unfold wrapWaypointIndex. monad.
      destruct (cyclical_path self); simpl.
      * destruct (PyList.len l' =? 0); simpl;
          [eexists (idx self), _; reflexivity|].
        pub_cases now; eexists _, _; reflexivity.
      * destruct (idx self >=? PyList.len l'); simpl;
          pub_cases now; eexists _, _; reflexivity.
    + destruct (idx self >=? PyList.len l'); simpl;
        eexists _, _; reflexivity.
  - eexists _, _; apply Hid.
  - eexists _, _; apply Hid.
  - unfold odometryCallback. monad.
    destruct (PyList.getitem _ _); simpl; [|eexists _, _; apply Hid].
    destruct (Np.sub _ _); simpl; [|eexists _, _; apply Hid].
    destruct (flt _ _); simpl; [|eexists _, _; apply Hid].
    unfold wrapWaypointIndex. monad.
    destruct (cyclical_path self); simpl.
    + destruct (PyList.len (wps self) =? 0); simpl;
        [eexists _, (wps self); reflexivity|].
      pub_cases now; eexists _, (wps self); reflexivity.
    + destruct (idx self + 1 >=? PyList.len (wps self)); simpl;
        pub_cases now; eexists _, (wps self); reflexivity.
Qed.

(** X14: No call ever writes the threshold or the cycle flag. *)
Theorem step_keeps_configuration self c :
  threshold (step self c) = threshold self
  /\ cyclical_path (step self c) = cyclical_path self.
Proof.
  destruct (step_shape self c) as (i & l & ->). split; reflexivity.
Qed.

(** X15: Position samples, listing and the unimplemented file service never
    change the waypoint list. *)
Theorem step_keeps_list self c :
  match c with
  | AddWaypoint _ | RemoveWaypoint _ _ => False
  | _ => True
  end ->
  waypoint_list (step self c) = waypoint_list self.
Proof.
  unfold step. destruct c as [req|now req| | |now msg]; simpl;
    intros Hc; try contradiction; try reflexivity.
  unfold odometryCallback. monad.
  destruct (PyList.getitem _ _); simpl; [|reflexivity].
  destruct (Np.sub _ _); simpl; [|reflexivity].
  destruct (flt _ _); simpl; [|reflexivity].
  unfold wrapWaypointIndex. monad.
  destruct (cyclical_path self); simpl.
  - destruct (PyList.len (wps self) =? 0); simpl; [reflexivity|].
    pub_cases now; reflexivity.
  - destruct (idx self + 1 >=? PyList.len (wps self)); simpl;
      pub_cases now; reflexivity.
Qed.

(** X16: Every call keeps the waypoints well-formed: an added waypoint has
    four components and nothing else creates or edits one. *)
Theorem step_keeps_waypoints_wf self c :
  waypoints_wf self -> waypoints_wf (step self c).
Proof. exact (step_wf self c). Qed.

(** X17: Who publishes what: a relative pose is only ever sent by a position
    sample, and a command only by a position sample or by a removal
    whose index is the current index.  Adding a waypoint, listing and
    the file service publish nothing. *)
Theorem publications_by_call self c :
  (existsb is_relPose_pub (output (handle c self)) = true ->
     is_sample c = true)
  /\ (existsb is_waypoint_pub (output (handle c self)) = true ->
        match c with
        | PositionSample _ _ => True
        | RemoveWaypoint _ req =>
            remove_index req = current_waypoint_index self
        | _ => False
        end).
Proof.
  destruct c as [req|now req| | |now msg]; simpl;
    try (split; [discriminate|discriminate]);
    try (split; [reflexivity|exact (fun _ => I)]).
  - unfold addWaypointCallback. monad.
    destruct (insertion_index self req) as [index|]; simpl;
      [|split; discriminate].
    destruct (idx self >=? index); simpl; split; discriminate.
  - unfold removeWaypointCallback. monad.
    destruct (PyList.len (wps self) =? 1); simpl; [split; discriminate|].
    destruct (remove_index req >=? PyList.len (wps self)); simpl;
      [split; discriminate|].
    destruct (PyList.delitem _ _) as [l'|]; simpl; [|split; discriminate].
    destruct (Z.eqb_spec (remove_index req) (idx self)) as [Heq|Hne]; simpl.
    + split; [|intros _; exact Heq].
      unfold wrapWaypointIndex. monad.
      destruct (cyclical_path self); simpl.
      * destruct (PyList.len l' =? 0); simpl; [discriminate|].
        pub_cases now; discriminate.
      * destruct (idx self >=? PyList.len l'); simpl;
          pub_cases now; discriminate.
    + destruct (idx self >=? PyList.len l'); simpl; split; discriminate.
Qed.


(** *** Sequences of position samples without cycling *)

Lemma sample_step_non_cyclical now msg self :
  cyclical_path self = false ->
  index_in_range self ->
  exists i,
    step self (PositionSample now msg) = set_index i self
    /\ idx self <= i <= PyList.len (wps self) - 1.
Proof.
  intros Hc [Hi Hn]. unfold step. simpl.
  assert (Hid : self = set_index (idx self) self) by (now destruct self).
  unfold odometryCallback. monad.
  destruct (PyList.getitem _ _); simpl;
    [|exists (idx self); split; [exact Hid|lia]].
  destruct (Np.sub _ _); simpl;
    [|exists (idx self); split; [exact Hid|lia]].
  destruct (flt _ _); simpl;
    [|exists (idx self); split; [exact Hid|lia]].
  unfold wrapWaypointIndex. monad. rewrite Hc. simpl.
  destruct (Z.geb_spec (idx self + 1) (PyList.len (wps self))); simpl;
    pub_cases now; eexists; (split; [reflexivity|lia]).
Qed.

(** X18: In non-cyclical mode position samples never move the index back
    and never past the last waypoint; the list stays as it is.  In
    particular a node at the last waypoint stays there. *)
Theorem run_samples_non_cyclical calls self :
  cyclical_path self = false ->
  index_in_range self ->
  forallb is_sample calls = true ->
  waypoint_list (run self calls) = waypoint_list self
  /\ current_waypoint_index self
       <= current_waypoint_index (run self calls)
       <= PyList.len (waypoint_list self) - 1.
Proof.
  revert self. induction calls as [|c calls IH]; intros self Hc Hinv Hs.
  - simpl. destruct Hinv. split; [reflexivity|lia].
  - simpl in Hs. apply andb_prop in Hs. destruct Hs as [Hs1 Hs2].
    destruct c as [| | | |now msg]; try discriminate.
    destruct (sample_step_non_cyclical now msg self Hc Hinv)
      as (i & Hstep & Hi).
    unfold run in *. simpl foldl. rewrite Hstep.
    destruct Hinv as [Hr Hn].
    destruct (IH (set_index i self) Hc) as [Hl Hidx].
    + split; simpl; lia.
    + exact Hs2.
    + simpl in Hl, Hidx. split; [exact Hl|lia].
Qed.

(** *** Samples on a malformed current waypoint *)

(** X19: A current waypoint with no or exactly two components cannot be
    subtracted from the position: the callback raises [ValueError]
    before anything is published, and writes no field. *)
Theorem odometryCallback_bad_waypoint now msg self (wp : list F) :
  0 <= current_waypoint_index self < PyList.len (waypoint_list self) ->
  waypoint_list self !! Z.to_nat (current_waypoint_index self) = Some wp ->
  length wp = 0%nat \/ length wp = 2%nat ->
  odometryCallback now msg self = Raise ValueError self [].
Proof.
  intros Hi Hwp Hlen.
  assert (Hget : PyList.getitem (wps self) (idx self) = Some wp)
    by (rewrite getitem_nonneg by exact Hi; exact Hwp).
  assert (Hsub : Np.sub (current_position_of msg) (take 3 wp) = None).
  { destruct wp as [|a [|b [|c wp]]]; simpl in Hlen;
      try (destruct Hlen; discriminate); reflexivity. }
  revert Hsub. unfold odometryCallback.
  generalize (Np.sub (current_position_of msg)). intros sub Hsub.
  monad. rewrite Hget. simpl. rewrite Hsub. reflexivity.
Qed.

(** *** Calls on a node in good order *)

(** X20: Any sequence of calls keeps the index in range and the waypoints
    well-formed. *)
Theorem run_keeps_invariants calls self :
  index_in_range self ->
  waypoints_wf self ->
  index_in_range (run self calls) /\ waypoints_wf (run self calls).
Proof.
  revert self. induction calls as [|c calls IH]; intros self Hinv Hwf.
  - split; assumption.
  - unfold run in *. simpl. apply IH.
    + now apply step_in_range.
    + now apply step_wf.
Qed.

(** X21: On a node with the index in range and well-formed waypoints every
    call ends without an exception, except a removal with an index
    below -len. *)
Theorem handle_ends_normally c self :
  index_in_range self ->
  waypoints_wf self ->
  match c with
  | RemoveWaypoint _ req =>
      - PyList.len (waypoint_list self) <= remove_index req
  | _ => True
  end ->
  exists v self' out, handle c self = Ok v self' out.
Proof.
  intros Hinv Hwf Hc. destruct c as [req|now req| | |now msg]; simpl.
  - destruct (Z.lt_ge_cases (PyList.len (wps self)) (add_index req))
      as [Hlt|Hge].
    + rewrite (addWaypointCallback_past_end req self Hlt). eauto.
    + assert (Hins : exists index, insertion_index self req = Some index).
      { unfold insertion_index.
        destruct (add_index req =? -1); [eauto|].
        destruct (Z.gtb_spec (add_index req) (PyList.len (wps self)));
          [lia|eauto]. }
      destruct Hins as [index Hins].
      rewrite (addWaypointCallback_run req self index Hins). eauto.
  - destruct Hinv as [Hi Hn].
    destruct (Z.eq_dec (PyList.len (wps self)) 1) as [H1|H1].
    { unfold removeWaypointCallback. monad. rewrite H1. simpl. eauto. }
    destruct (Z_le_gt_dec (PyList.len (wps self)) (remove_index req))
      as [Hge|Hlt].
    { rewrite (removeWaypointCallback_out_of_range now req self H1 Hge).
      eauto. }
    destruct (Z.eq_dec (remove_index req) (idx self)) as [Heq|Hne].
    + destruct (removeWaypointCallback_current_run now req self
                  (conj Hi Hn) Hwf ltac:(lia) Heq) as (self' & c & Hrun).
      rewrite Hrun. eauto.
    + assert (Hdel : exists l', PyList.delitem (wps self) (remove_index req)
                                = Some l').
      { destruct (Z.ltb_spec (remove_index req) 0).
        - rewrite delitem_negative by lia. eauto.
        - rewrite delitem_nonneg by lia. eauto. }
      destruct Hdel as [l' Hdel].
      rewrite (removeWaypointCallback_other_run now req self l'
                 H1 ltac:(lia) Hdel Hne). eauto.
  - unfold setWaypointsFromFileCallback. monad. eauto.
  - unfold listWaypoints. monad. eauto.
  - destruct (getitem_is_Some (wps self) (idx self) (proj1 Hinv))
      as [wp Hget].
    pose proof Hget as Hwp. rewrite getitem_nonneg in Hwp by apply Hinv.
    destruct (wf_lookup self _ wp Hwf Hwp) as (wx & wy & wa & rest & ->).
    destruct (odometryCallback_two_ways now msg self wx wy wa rest
                Hinv Hwf Hwp) as [(c & self' & Hrun) | Hrun];
      rewrite Hrun; eauto.
Qed.


End CallbackFacts.

(** ** The callbacks on concrete nodes *)

Lemma scenario_in_range i cycle :
  0 <= i < 3 -> index_in_range (scenario_node i cycle).
Proof. unfold index_in_range, PyList.len. simpl. lia. Qed.

Lemma scenario_wf i cycle : waypoints_wf (scenario_node i cycle).
Proof. unfold waypoints_wf. simpl. repeat constructor. Qed.

(** Scenario A: at (0, 0, -10) the first waypoint is reached, the index
    becomes 1 and the command (5, 5, 10, 0) is published. *)
Lemma scenario_A :
  odometryCallback 7 (sample_at 0 0 (-10)) (scenario_node 0 true)
  = Ok PyNone (scenario_node 1 true)
      [relPose_pub {| rel_x := 0; rel_y := 0; rel_z := 0; rel_F := 10 |};
       waypoint_pub {| cmd_stamp := 7; cmd_x := 5; cmd_y := 5; cmd_F := 10;
                       cmd_z := 0;
                       cmd_mode := MODE_XPOS_YPOS_YAW_ALTITUDE |}].
Proof. reflexivity. Qed.

(** Scenario B: removing waypoint 1 while it is the current one. *)
Lemma scenario_B :
  removeWaypointCallback 7 {| remove_index := 1 |} (scenario_node 1 true)
  = Ok (PyInt 2)
      {| waypoint_list := [[0; 0; 10]; [10; 10; 10]];
         current_waypoint_index := 1;
         threshold := 1; cyclical_path := true |}
      [waypoint_pub {| cmd_stamp := 7; cmd_x := 10; cmd_y := 10;
                       cmd_F := 10; cmd_z := 0;
                       cmd_mode := MODE_XPOS_YPOS_YAW_ALTITUDE |}].
Proof. reflexivity. Qed.

(** Scenario C: inserting at the front moves the index along. *)
Lemma scenario_C :
  addWaypointCallback (add_request 1 1 1 0 0) (scenario_node 0 true)
  = Ok (PyInt 4)
      {| waypoint_list := [1; 1; 1; 0] :: scenario_waypoints;
         current_waypoint_index := 1;
         threshold := 1; cyclical_path := true |}
      [loginfo "Added New Waypoint"].
Proof. reflexivity. Qed.

(** Scenario D: index 5 on three waypoints. *)
Lemma scenario_D :
  removeWaypointCallback 7 {| remove_index := 5 |} (scenario_node 0 true)
  = Ok PyNone (scenario_node 0 true) [logwarn "Waypoint Index Out of Range"].
Proof. reflexivity. Qed.

(** C5 (where the code departs from it): index -2 is neither in
    [0, len] nor the sentinel, yet the add is not turned down.  The new
    waypoint goes in before the last two and the current index is moved
    from 0 to 1, so it now points to the new waypoint. *)
Theorem addWaypointCallback_negative_index_accepted :
  addWaypointCallback (add_request 1 1 1 0 (-2)) (scenario_node 0 true)
  = Ok (PyInt 4)
      {| waypoint_list := [[0; 0; 10]; [1; 1; 1; 0]; [5; 5; 10]; [10; 10; 10]];
         current_waypoint_index := 1;
         threshold := 1; cyclical_path := true |}
      [loginfo "Added New Waypoint"].
Proof. reflexivity. Qed.

(** C6 (where the code departs from it): the add at index -2 goes
    through.  The new waypoint lands at position 1, after the current
    index 0, so the index should stay; it is moved to 1 all the same
    and no longer points to the waypoint it pointed to. *)
Theorem addWaypointCallback_negative_index_retargets :
  ~ failed (addWaypointCallback (add_request 1 1 1 0 (-2))
              (scenario_node 0 true))
  /\ waypoint_list
       (final_state (addWaypointCallback (add_request 1 1 1 0 (-2))
                       (scenario_node 0 true)))
     = [[0; 0; 10]; [1; 1; 1; 0]; [5; 5; 10]; [10; 10; 10]]
  /\ current_waypoint_index (scenario_node 0 true) = 0
  /\ current_waypoint_index
       (final_state (addWaypointCallback (add_request 1 1 1 0 (-2))
                       (scenario_node 0 true))) = 1
  /\ PyList.getitem (waypoint_list (scenario_node 0 true))
       (current_waypoint_index (scenario_node 0 true)) = Some [0; 0; 10]
  /\ PyList.getitem
       (waypoint_list
          (final_state (addWaypointCallback (add_request 1 1 1 0 (-2))
                          (scenario_node 0 true))))
       (current_waypoint_index
          (final_state (addWaypointCallback (add_request 1 1 1 0 (-2))
                          (scenario_node 0 true))))
     = Some [1; 1; 1; 0].
Proof.
  split; [exact (fun Hf => Hf)|]. repeat split; reflexivity.
Qed.

(** C7 as stated does not hold: with a single waypoint the call does
    not fail, the handler answers with the length. *)
Lemma single_waypoint_removal_not_failed :
  ~ (failed (removeWaypointCallback 7 {| remove_index := 0 |} single_node)
     /\ final_state
          (removeWaypointCallback 7 {| remove_index := 0 |} single_node)
        = single_node).
Proof. intros [Hf _]. exact Hf. Qed.

(** ** The theorems at concrete inputs *)

Lemma reachable_index_invariant_witness :
  reachable scenario_run
  /\ (0 <= current_waypoint_index scenario_run
        < PyList.len (waypoint_list scenario_run)
      /\ 1 <= PyList.len (waypoint_list scenario_run)).
Proof.
  assert (Hr : reachable scenario_run).
  { unfold scenario_run. do 2 apply reachable_step.
    apply reachable_init; [discriminate|reflexivity]. }
  split; [exact Hr|].
  exact (reachable_index_invariant scenario_run Hr).
Defined.

Lemma odometryCallback_advance_witness :
  index_in_range (wide_node 0)
  /\ waypoints_wf (wide_node 0)
  /\ scenario_waypoints !! Z.to_nat 0 = Some [0; 0; 10]
  /\ flt (fsqrt (0 + (0 - 0) * (0 - 0) + (0 - 0) * (0 - 0)
                 + (- (-12) - 10) * (- (-12) - 10))) 3 = true
  /\ flt (fsqrt (0 + (3 - 0) * (3 - 0) + (0 - 0) * (0 - 0)
                 + (- (-10) - 10) * (- (-10) - 10))) 3 = false
  /\ odometryCallback 7 (sample_at 0 0 (-12)) (wide_node 0)
     = Ok PyNone (wide_node 1)
         [relPose_pub {| rel_x := 0; rel_y := 0; rel_z := 0; rel_F := 12 |};
          waypoint_pub {| cmd_stamp := 7; cmd_x := 5; cmd_y := 5;
                          cmd_F := 10; cmd_z := 0;
                          cmd_mode := MODE_XPOS_YPOS_YAW_ALTITUDE |}]
  /\ odometryCallback 7 (sample_at 3 0 (-10)) (wide_node 0)
     = Ok PyNone (wide_node 0)
         [relPose_pub {| rel_x := 3; rel_y := 0; rel_z := 0; rel_F := 10 |}].
Proof.
  assert (H1 : index_in_range (wide_node 0))
    by (unfold index_in_range, PyList.len; simpl; lia).
  assert (H2 : waypoints_wf (wide_node 0))
    by (unfold waypoints_wf; simpl; repeat constructor).
  assert (H3 : waypoint_list (wide_node 0)
               !! Z.to_nat (current_waypoint_index (wide_node 0))
               = Some [0; 0; 10]) by reflexivity.
  assert (H4 : flt (fsqrt (0 + (0 - 0) * (0 - 0) + (0 - 0) * (0 - 0)
                           + (- (-12) - 10) * (- (-12) - 10))) 3 = true)
    by reflexivity.
  assert (H5 : flt (fsqrt (0 + (3 - 0) * (3 - 0) + (0 - 0) * (0 - 0)
                           + (- (-10) - 10) * (- (-10) - 10))) 3 = false)
    by reflexivity.
  split; [exact H1|]. split; [exact H2|]. split; [exact H3|].
  split; [exact H4|]. split; [exact H5|]. split.
  - destruct (proj1 (odometryCallback_advance 7 (sample_at 0 0 (-12))
                       (wide_node 0) 0 0 10 [] H1 H2 H3) H4)
      as (_ & x & y & a & tail & Hlk & Hrun).
    change (Some [5; 5; 10] = Some (x :: y :: a :: tail)) in Hlk.
    injection Hlk as Hx Hy Ha Ht. subst x y a tail. exact Hrun.
  - exact (proj2 (odometryCallback_advance 7 (sample_at 3 0 (-10))
                    (wide_node 0) 0 0 10 [] H1 H2 H3) H5).
Defined.

Lemma wrapWaypointIndex_policy_witness :
  0 <= 3 <= PyList.len scenario_waypoints
  /\ 1 <= PyList.len scenario_waypoints
  /\ wrapWaypointIndex (scenario_node 3 true) = Ok tt (scenario_node 0 true) []
  /\ wrapWaypointIndex (scenario_node 3 false)
     = Ok tt (scenario_node 2 false) [].
Proof.
  assert (H1 : 0 <= 3 <= PyList.len scenario_waypoints)
    by (unfold PyList.len; simpl; lia).
  assert (H2 : 1 <= PyList.len scenario_waypoints)
    by (unfold PyList.len; simpl; lia).
  assert (H3 : 3 >= PyList.len scenario_waypoints)
    by (unfold PyList.len; simpl; lia).
  split; [exact H1|]. split; [exact H2|]. split.
  - exact (proj1 (wrapWaypointIndex_policy (scenario_node 3 true) H1 H2)
             eq_refl).
  - exact (proj1 (proj2 (wrapWaypointIndex_policy (scenario_node 3 false)
                           H1 H2) eq_refl) H3).
Defined.

Lemma removeWaypointCallback_current_witness :
  index_in_range (scenario_node 1 true)
  /\ waypoints_wf (scenario_node 1 true)
  /\ 2 <= PyList.len scenario_waypoints
  /\ removeWaypointCallback 7 {| remove_index := 1 |} (scenario_node 1 true)
     = Ok (PyInt 2)
         {| waypoint_list := [[0; 0; 10]; [10; 10; 10]];
            current_waypoint_index := 1;
            threshold := 1; cyclical_path := true |}
         [waypoint_pub {| cmd_stamp := 7; cmd_x := 10; cmd_y := 10;
                          cmd_F := 10; cmd_z := 0;
                          cmd_mode := MODE_XPOS_YPOS_YAW_ALTITUDE |}].
Proof.
  assert (H1 : index_in_range (scenario_node 1 true))
    by (apply scenario_in_range; lia).
  assert (H2 : waypoints_wf (scenario_node 1 true)) by apply scenario_wf.
  assert (H3 : 2 <= PyList.len scenario_waypoints)
    by (unfold PyList.len; simpl; lia).
  split; [exact H1|]. split; [exact H2|]. split; [exact H3|].
  destruct (removeWaypointCallback_current 7 {| remove_index := 1 |}
              (scenario_node 1 true) H1 H2 H3 eq_refl)
    as (_ & _ & _ & x & y & a & tail & Hlk & Hrun).
  change (Some [10; 10; 10] = Some (x :: y :: a :: tail)) in Hlk.
  injection Hlk as Hx Hy Ha Ht. subst x y a tail. exact Hrun.
Defined.

Lemma addWaypointCallback_index_bookkeeping_witness :
  index_in_range (scenario_node 0 true)
  /\ insertion_index (scenario_node 0 true) (add_request 1 1 1 0 0) = Some 0
  /\ exists self',
       addWaypointCallback (add_request 1 1 1 0 0) (scenario_node 0 true)
       = Ok (PyInt (PyList.len (waypoint_list self'))) self'
           [loginfo "Added New Waypoint"]
       /\ current_waypoint_index self' = 1
       /\ PyList.len (waypoint_list self') = 4.
Proof.
  assert (H1 : index_in_range (scenario_node 0 true))
    by (apply scenario_in_range; lia).
  split; [exact H1|]. split; [reflexivity|].
  destruct (addWaypointCallback_index_bookkeeping (add_request 1 1 1 0 0)
              (scenario_node 0 true) 0 H1 eq_refl)
    as (self' & Hrun & _ & Hlen & Hle & _).
  exists self'. split; [exact Hrun|]. split.
  - apply Hle. simpl. lia.
  - exact Hlen.
Defined.

Lemma removeWaypointCallback_only_waypoint_witness :
  PyList.len (waypoint_list single_node) = 1
  /\ removeWaypointCallback 7 {| remove_index := 0 |} single_node
     = Ok (PyInt 1) single_node [logwarn "Cannot Remove Only Waypoint"].
Proof.
  split; [reflexivity|].
  exact (removeWaypointCallback_only_waypoint 7 {| remove_index := 0 |}
           single_node eq_refl).
Defined.

Lemma odometryCallback_relative_pose_witness :
  index_in_range (scenario_node 0 true)
  /\ waypoints_wf (scenario_node 0 true)
  /\ exists rest,
       output (odometryCallback 7 (sample_at 3 4 (-10)) (scenario_node 0 true))
       = relPose_pub {| rel_x := 3; rel_y := 4; rel_z := 0; rel_F := 10 |}
           :: rest
       /\ Forall (fun ev => forall r, ev <> relPose_pub r) rest.
Proof.
  assert (H1 : index_in_range (scenario_node 0 true))
    by (apply scenario_in_range; lia).
  assert (H2 : waypoints_wf (scenario_node 0 true)) by apply scenario_wf.
  split; [exact H1|]. split; [exact H2|].
  exact (odometryCallback_relative_pose 7 (sample_at 3 4 (-10))
           (scenario_node 0 true) H1 H2).
Defined.

Lemma removeWaypointCallback_negative_index_witness :
  index_in_range (scenario_node 0 true)
  /\ 2 <= PyList.len scenario_waypoints
  /\ - PyList.len scenario_waypoints <= -1 <= -1
  /\ exists self',
       removeWaypointCallback 7 {| remove_index := -1 |} (scenario_node 0 true)
       = Ok (PyInt 2) self' []
       /\ waypoint_list self' = [[0; 0; 10]; [5; 5; 10]]
       /\ PyList.len (waypoint_list self') = 2.
Proof.
  assert (H1 : index_in_range (scenario_node 0 true))
    by (apply scenario_in_range; lia).
  assert (H2 : 2 <= PyList.len scenario_waypoints)
    by (unfold PyList.len; simpl; lia).
  assert (H3 : - PyList.len scenario_waypoints <= -1 <= -1)
    by (unfold PyList.len; simpl; lia).
  split; [exact H1|]. split; [exact H2|]. split; [exact H3|].
  exact (removeWaypointCallback_negative_index 7 {| remove_index := -1 |}
           (scenario_node 0 true) H1 H2 H3).
Defined.

(** ** Further properties at concrete inputs *)

Lemma four_in_range i : 0 <= i < 4 -> index_in_range (four_node i).
Proof. unfold index_in_range, PyList.len. simpl. lia. Qed.

Lemma four_wf i : waypoints_wf (four_node i).
Proof. unfold waypoints_wf. simpl. repeat constructor. Qed.

Lemma init_raises_without_first_target_witness :
  (length [0; 0] < 3)%nat
  /\ init [[0; 0]; [5; 5; 10]] 1 true 7
     = Raise IndexError short_node
         [relPose_pub {| rel_x := 0; rel_y := 0; rel_z := 0; rel_F := 0 |}].
Proof.
  assert (H1 : (length [0; 0] < 3)%nat) by (simpl; lia).
  split; [exact H1|].
  exact (init_raises_without_first_target [[0; 0]; [5; 5; 10]] 1 true 7 H1).
Defined.

Lemma pubNextWaypoint_publishes_current_witness :
  0 <= 3 < PyList.len (waypoint_list (four_node 3))
  /\ waypoint_list (four_node 3) !! Z.to_nat 3 = Some [15; 15; 10; 1]
  /\ pubNextWaypoint 7 (four_node 3)
     = Ok tt (four_node 3)
         [waypoint_pub {| cmd_stamp := 7; cmd_x := 15; cmd_y := 15;
                          cmd_F := 10; cmd_z := 1;
                          cmd_mode := MODE_XPOS_YPOS_YAW_ALTITUDE |}].
Proof.
  assert (H1 : 0 <= 3 < PyList.len (waypoint_list (four_node 3)))
    by (unfold PyList.len; simpl; lia).
  assert (H2 : waypoint_list (four_node 3) !! Z.to_nat 3
               = Some [15; 15; 10; 1]) by reflexivity.
  split; [exact H1|]. split; [exact H2|].
  exact (pubNextWaypoint_publishes_current 7 (four_node 3) 15 15 10 [1]
           H1 H2).
Defined.

Lemma pubNextWaypoint_short_waypoint_witness :
  0 <= 0 < PyList.len (waypoint_list short_node)
  /\ waypoint_list short_node !! Z.to_nat 0 = Some [0; 0]
  /\ (length [0; 0] < 3)%nat
  /\ pubNextWaypoint 7 short_node = Raise IndexError short_node [].
Proof.
  assert (H1 : 0 <= 0 < PyList.len (waypoint_list short_node))
    by (unfold PyList.len; simpl; lia).
  assert (H2 : waypoint_list short_node !! Z.to_nat 0 = Some [0; 0])
    by reflexivity.
  assert (H3 : (length [0; 0] < 3)%nat) by (simpl; lia).
  split; [exact H1|]. split; [exact H2|]. split; [exact H3|].
  exact (pubNextWaypoint_short_waypoint 7 short_node [0; 0] H1 H2 H3).
Defined.

Lemma addWaypointCallback_places_waypoint_witness :
  0 <= 2 <= PyList.len scenario_waypoints
  /\ PyList.getitem
       (waypoint_list
          (final_state (addWaypointCallback (add_request 1 2 3 4 2)
                          (scenario_node 0 true)))) 2
     = Some [1; 2; 3; 4].
Proof.
  assert (H1 : 0 <= 2 <= PyList.len scenario_waypoints)
    by (unfold PyList.len; simpl; lia).
  split; [exact H1|].
  exact (proj1 (addWaypointCallback_places_waypoint (add_request 1 2 3 4 2)
                  (scenario_node 0 true) H1)).
Defined.

Lemma addWaypointCallback_appends_witness :
  add_index (add_request 1 2 3 4 (-1)) = -1
  /\ exists self',
       addWaypointCallback (add_request 1 2 3 4 (-1)) (scenario_node 0 true)
       = Ok (PyInt 4) self' [loginfo "Added New Waypoint"]
       /\ waypoint_list self' = scenario_waypoints ++ [[1; 2; 3; 4]].
Proof.
  split; [reflexivity|].
  exact (addWaypointCallback_appends (add_request 1 2 3 4 (-1))
           (scenario_node 0 true) eq_refl).
Defined.

Lemma add_then_remove_witness :
  index_in_range (four_node 1)
  /\ 0 <= 0 <= PyList.len (waypoint_list (four_node 1))
  /\ exists self2,
       removeWaypointCallback 7 {| remove_index := 0 |}
         (final_state (addWaypointCallback (add_request 1 2 3 4 0)
                         (four_node 1)))
       = Ok (PyInt 4) self2 []
       /\ waypoint_list self2 = waypoint_list (four_node 1)
       /\ current_waypoint_index self2 = 2.
Proof.
  assert (H1 : index_in_range (four_node 1)) by (apply four_in_range; lia).
  assert (H2 : 0 <= 0 <= PyList.len (waypoint_list (four_node 1)))
    by (unfold PyList.len; simpl; lia).
  split; [exact H1|]. split; [exact H2|].
  exact (add_then_remove (add_request 1 2 3 4 0) 7 (four_node 1) H1 H2).
Defined.

Lemma removeWaypointCallback_past_end_witness :
  PyList.len (waypoint_list (scenario_node 0 true)) <> 1
  /\ PyList.len (waypoint_list (scenario_node 0 true)) <= 5
  /\ removeWaypointCallback 7 {| remove_index := 5 |} (scenario_node 0 true)
     = Ok PyNone (scenario_node 0 true)
         [logwarn "Waypoint Index Out of Range"].
Proof.
  assert (H1 : PyList.len (waypoint_list (scenario_node 0 true)) <> 1)
    by (unfold PyList.len; simpl; lia).
  assert (H2 : PyList.len (waypoint_list (scenario_node 0 true)) <= 5)
    by (unfold PyList.len; simpl; lia).
  split; [exact H1|]. split; [exact H2|].
  exact (removeWaypointCallback_past_end 7 {| remove_index := 5 |}
           (scenario_node 0 true) H1 H2).
Defined.

Lemma removeWaypointCallback_below_range_witness :
  PyList.len (waypoint_list (scenario_node 0 true)) <> 1
  /\ -4 < - PyList.len (waypoint_list (scenario_node 0 true))
  /\ removeWaypointCallback 7 {| remove_index := -4 |} (scenario_node 0 true)
     = Raise IndexError (scenario_node 0 true) [].
Proof.
  assert (H1 : PyList.len (waypoint_list (scenario_node 0 true)) <> 1)
    by (unfold PyList.len; simpl; lia).
  assert (H2 : -4 < - PyList.len (waypoint_list (scenario_node 0 true)))
    by (unfold PyList.len; simpl; lia).
  split; [exact H1|]. split; [exact H2|].
  exact (removeWaypointCallback_below_range 7 {| remove_index := -4 |}
           (scenario_node 0 true) H1 H2).
Defined.

Lemma removeWaypointCallback_other_index_witness :
  index_in_range (four_node 1)
  /\ 2 <= PyList.len (waypoint_list (four_node 1))
  /\ - PyList.len (waypoint_list (four_node 1)) <= 0
       < PyList.len (waypoint_list (four_node 1))
  /\ 0 <> current_waypoint_index (four_node 1)
  /\ exists self',
       removeWaypointCallback 7 {| remove_index := 0 |} (four_node 1)
       = Ok (PyInt 3) self' []
       /\ waypoint_list self' = [[5; 5; 10]; [10; 10; 10]; [15; 15; 10; 1]]
       /\ current_waypoint_index self' = 1.
Proof.
  assert (H1 : index_in_range (four_node 1)) by (apply four_in_range; lia).
  assert (H2 : 2 <= PyList.len (waypoint_list (four_node 1)))
    by (unfold PyList.len; simpl; lia).
  assert (H3 : - PyList.len (waypoint_list (four_node 1)) <= 0
               < PyList.len (waypoint_list (four_node 1)))
    by (unfold PyList.len; simpl; lia).
  assert (H4 : 0 <> current_waypoint_index (four_node 1))
    by (simpl; lia).
  split; [exact H1|]. split; [exact H2|]. split; [exact H3|].
  split; [exact H4|].
  exact (removeWaypointCallback_other_index 7 {| remove_index := 0 |}
           (four_node 1) H1 H2 H3 H4).
Defined.

Lemma removeWaypointCallback_other_target_witness :
  index_in_range (four_node 1)
  /\ 2 <= PyList.len (waypoint_list (four_node 1))
  /\ - PyList.len (waypoint_list (four_node 1)) <= 0
       < PyList.len (waypoint_list (four_node 1))
  /\ 0 <> current_waypoint_index (four_node 1)
  /\ output (removeWaypointCallback 7 {| remove_index := 0 |} (four_node 1))
     = []
  /\ waypoint_list
       (final_state
          (removeWaypointCallback 7 {| remove_index := 0 |} (four_node 1)))
     !! Z.to_nat
          (current_waypoint_index
             (final_state
                (removeWaypointCallback 7 {| remove_index := 0 |}
                   (four_node 1))))
     = waypoint_list (four_node 1) !! Z.to_nat (1 + 1).
Proof.
  assert (H1 : index_in_range (four_node 1)) by (apply four_in_range; lia).
  assert (H2 : 2 <= PyList.len (waypoint_list (four_node 1)))
    by (unfold PyList.len; simpl; lia).
  assert (H3 : - PyList.len (waypoint_list (four_node 1)) <= 0
               < PyList.len (waypoint_list (four_node 1)))
    by (unfold PyList.len; simpl; lia).
  assert (H4 : 0 <> current_waypoint_index (four_node 1))
    by (simpl; lia).
  assert (H5 : 0 <= current_waypoint_index (four_node 1)) by (simpl; lia).
  assert (H6 : current_waypoint_index (four_node 1)
               < PyList.len (waypoint_list (four_node 1)) - 1)
    by (unfold PyList.len; simpl; lia).
  split; [exact H1|]. split; [exact H2|]. split; [exact H3|].
  split; [exact H4|].
  destruct (removeWaypointCallback_other_target 7 {| remove_index := 0 |}
              (four_node 1) H1 H2 H3 H4) as (Hout & _ & _ & Hnext & _).
  split; [exact Hout|]. exact (Hnext H5 H6).
Defined.

Lemma removeWaypointCallback_failed_iff_witness :
  index_in_range (scenario_node 0 true)
  /\ waypoints_wf (scenario_node 0 true)
  /\ (failed (removeWaypointCallback 7 {| remove_index := 5 |}
                (scenario_node 0 true))
      <-> PyList.len scenario_waypoints <> 1
          /\ (PyList.len scenario_waypoints <= 5
              \/ 5 < - PyList.len scenario_waypoints)).
Proof.
  assert (H1 : index_in_range (scenario_node 0 true))
    by (apply scenario_in_range; lia).
  assert (H2 : waypoints_wf (scenario_node 0 true)) by apply scenario_wf.
  split; [exact H1|]. split; [exact H2|].
  exact (proj1 (removeWaypointCallback_failed_iff 7 {| remove_index := 5 |}
                  (scenario_node 0 true) H1 H2)).
Defined.

Lemma step_keeps_list_witness :
  waypoint_list (step (scenario_node 0 true)
                   (PositionSample 7 (sample_at 0 0 (-10))))
  = scenario_waypoints.
Proof.
  exact (step_keeps_list (scenario_node 0 true)
           (PositionSample 7 (sample_at 0 0 (-10))) I).
Defined.

Lemma step_keeps_waypoints_wf_witness :
  waypoints_wf (scenario_node 0 true)
  /\ waypoints_wf (step (scenario_node 0 true)
                     (AddWaypoint (add_request 1 2 3 4 (-2)))).
Proof.
  assert (H1 : waypoints_wf (scenario_node 0 true)) by apply scenario_wf.
  split; [exact H1|].
  exact (step_keeps_waypoints_wf (scenario_node 0 true)
           (AddWaypoint (add_request 1 2 3 4 (-2))) H1).
Defined.

Lemma run_samples_non_cyclical_witness :
  cyclical_path (four_node 3) = false
  /\ index_in_range (four_node 3)
  /\ forallb is_sample
       [PositionSample 7 (sample_at 15 15 (-10));
        PositionSample 8 (sample_at 15 15 (-10))] = true
  /\ current_waypoint_index
       (run (four_node 3)
          [PositionSample 7 (sample_at 15 15 (-10));
           PositionSample 8 (sample_at 15 15 (-10))]) = 3.
Proof.
  assert (H1 : index_in_range (four_node 3)) by (apply four_in_range; lia).
  split; [reflexivity|]. split; [exact H1|]. split; [reflexivity|].
  destruct (run_samples_non_cyclical
              [PositionSample 7 (sample_at 15 15 (-10));
               PositionSample 8 (sample_at 15 15 (-10))]
              (four_node 3) eq_refl H1 eq_refl) as [_ Hidx].
  set (r := current_waypoint_index _) in *.
  change (3 <= r <= 3) in Hidx. lia.
Defined.

Lemma odometryCallback_bad_waypoint_witness :
  0 <= 0 < PyList.len (waypoint_list short_node)
  /\ waypoint_list short_node !! Z.to_nat 0 = Some [0; 0]
  /\ (length [0; 0] = 0%nat \/ length [0; 0] = 2%nat)
  /\ odometryCallback 7 (sample_at 0 0 0) short_node
     = Raise ValueError short_node [].
Proof.
  assert (H1 : 0 <= 0 < PyList.len (waypoint_list short_node))
    by (unfold PyList.len; simpl; lia).
  assert (H2 : waypoint_list short_node !! Z.to_nat 0 = Some [0; 0])
    by reflexivity.
  assert (H3 : length [0; 0] = 0%nat \/ length [0; 0] = 2%nat)
    by (right; reflexivity).
  split; [exact H1|]. split; [exact H2|]. split; [exact H3|].
  exact (odometryCallback_bad_waypoint 7 (sample_at 0 0 0) short_node
           [0; 0] H1 H2 H3).
Defined.

Lemma run_keeps_invariants_witness :
  index_in_range (scenario_node 0 true)
  /\ waypoints_wf (scenario_node 0 true)
  /\ index_in_range
       (run (scenario_node 0 true)
          [PositionSample 7 (sample_at 0 0 (-10));
           RemoveWaypoint 8 {| remove_index := 1 |};
           AddWaypoint (add_request 1 2 3 4 (-2))])
  /\ waypoints_wf
       (run (scenario_node 0 true)
          [PositionSample 7 (sample_at 0 0 (-10));
           RemoveWaypoint 8 {| remove_index := 1 |};
           AddWaypoint (add_request 1 2 3 4 (-2))]).
Proof.
  assert (H1 : index_in_range (scenario_node 0 true))
    by (apply scenario_in_range; lia).
  assert (H2 : waypoints_wf (scenario_node 0 true)) by apply scenario_wf.
  split; [exact H1|]. split; [exact H2|].
  exact (run_keeps_invariants
           [PositionSample 7 (sample_at 0 0 (-10));
            RemoveWaypoint 8 {| remove_index := 1 |};
            AddWaypoint (add_request 1 2 3 4 (-2))]
           (scenario_node 0 true) H1 H2).
Defined.

Lemma handle_ends_normally_witness :
  index_in_range (scenario_node 2 true)
  /\ waypoints_wf (scenario_node 2 true)
  /\ - PyList.len (waypoint_list (scenario_node 2 true)) <= -3
  /\ exists v self' out,
       handle (RemoveWaypoint 7 {| remove_index := -3 |})
         (scenario_node 2 true)
       = Ok v self' out.
Proof.
  assert (H1 : index_in_range (scenario_node 2 true))
    by (apply scenario_in_range; lia).
  assert (H2 : waypoints_wf (scenario_node 2 true)) by apply scenario_wf.
  assert (H3 : - PyList.len (waypoint_list (scenario_node 2 true)) <= -3)
    by (unfold PyList.len; simpl; lia).
  split; [exact H1|]. split; [exact H2|]. split; [exact H3|].
  exact (handle_ends_normally (RemoveWaypoint 7 {| remove_index := -3 |})
           (scenario_node 2 true) H1 H2 H3).
Defined.
